(** * PyTRiP98 [Cube]: a shallow embedding of [pytrip/cube.py] and [pytrip/dos.py]

    Conventions of the embedding.

    - A Python [float] is an IEEE binary64 number: Rocq's primitive [float],
      with the kernel's [add], [sub], [mul], [div] and comparisons.
    - A Python [int] is a [Z].
    - An attribute that [Cube.__init__] initialises with the empty-string
      sentinel and that later holds a number is an [option]: [None] is the
      sentinel.  An attribute that [__init__] does not create at all
      ([format_str], [pydata_type], [cube], [dicom_data]) is an [option] too:
      [None] is "no such attribute".
    - A raised exception is a value of [exn]; a method is a function of the
      state it may touch that returns the outcome together with the state
      reached, so that what was mutated before a [raise] stays visible.
    - A numpy array lives in a store ([heap]) and a cube holds its address:
      two cubes may share storage, as two Python objects may. *)

From stdpp Require Import base option list gmap strings.
From Stdlib Require Import ZArith Floats Ascii String Decimal DecimalString DecimalZ Lia.

#[local] Open Scope string_scope.
#[local] Open Scope Z_scope.
#[local] Set Warnings "-inexact-float".

(** ** Exceptions and outcomes *)

Inductive exn : Type :=
| FileNotFound (msg : string)     (* pytrip.error.FileNotFound *)
| InputError (msg : string)       (* pytrip.error.InputError *)
| IOError (msg : string)
| AttributeError (attr : string)
| TypeError
| ValueError
| IndexError
| ZeroDivisionError
| OverflowError
| PyException (msg : string).     (* a plain [Exception(msg)] *)

Inductive result (A : Type) : Type :=
| Ok (a : A)
| Raise (e : exn).
Arguments Ok {A} a.
Arguments Raise {A} e.

(** A computation over a mutable state [S]: the outcome and the state reached,
    also when the outcome is an exception. *)
Definition M (S A : Type) : Type := S -> result A * S.

Definition ret {S A} (a : A) : M S A := fun s => (Ok a, s).
Definition raise {S A} (e : exn) : M S A := fun s => (Raise e, s).
Definition bind {S A B} (m : M S A) (k : A -> M S B) : M S B :=
  fun s => match m s with
           | (Ok a, s') => k a s'
           | (Raise e, s') => (Raise e, s')
           end.
Definition get {S} : M S S := fun s => (Ok s, s).
Definition put {S} (s : S) : M S unit := fun _ => (Ok tt, s).
Definition modify {S} (f : S -> S) : M S unit := fun s => (Ok tt, f s).
(** A pure computation that may raise, run inside [M]. *)
Definition lift {S A} (r : result A) : M S A := fun s => (r, s).
(** The state a computation ends in, or the exception it ends with. *)
Definition exec {S A} (m : M S A) (s : S) : result S :=
  match m s with
  | (Ok _, s') => Ok s'
  | (Raise e, _) => Raise e
  end.
(** [when b m]: the Python [if b: m] with no [else]. *)
Definition when {S} (b : bool) (m : M S unit) : M S unit :=
  if b then m else ret tt.

#[export] Instance M_ret {S} : MRet (M S) := fun _ a => ret a.
#[export] Instance M_bind {S} : MBind (M S) := fun _ _ k m => bind m k.

Definition result_bind {A B} (r : result A) (k : A -> result B) : result B :=
  match r with Ok a => k a | Raise e => Raise e end.
#[export] Instance result_ret : MRet result := fun _ a => Ok a.
#[export] Instance result_mbind : MBind result := fun _ _ k r => result_bind r k.

(** ** Element types and arrays *)

(** The numpy element types the module uses ([np.double] is float64). *)
Inductive dtype : Type := np_int8 | np_int16 | np_int32 | np_float32 | np_double.

#[export] Instance dtype_eq_dec : EqDecision dtype.
Proof. solve_decision. Defined.

(** What an offset of the grid holds: a [float], the [int] that
    [_parse_trip_header] stores there until the product with a size that
    follows its loop makes it a float, or the empty string that an [int]
    becomes when the size is still the sentinel [""] ([n * ""] is [""]). *)
Inductive num : Type :=
  | PyInt (z : Z)
  | PyFloat (x : float)
  | PyEmptyStr.

(** A voxel value: an integer of an integer array, a float of a float array. *)
Inductive scalar : Type :=
| SInt (z : Z)
| SFloat (x : float).

Definition is_integer_dtype (dt : dtype) : bool :=
  match dt with np_int8 | np_int16 | np_int32 => true | _ => false end.

Definition scalar_zero (dt : dtype) : scalar :=
  if is_integer_dtype dt then SInt 0 else SFloat 0%float.

(** [v == 0] on one element, as numpy compares: [-0.0 == 0] holds, [nan == 0]
    does not. *)
Definition scalar_is_zero (v : scalar) : bool :=
  match v with
  | SInt z => Z.eqb z 0
  | SFloat x => PrimFloat.eqb x 0%float
  end.

(** A three-dimensional array in C order: [shape = (n0, n1, n2)] and the
    [n0 * n1 * n2] elements, the last index running fastest. *)
Record ndarray : Type := mk_ndarray {
  arr_dtype : dtype;
  arr_shape : nat * nat * nat;
  arr_data : list scalar
}.

Definition loc : Type := positive.
Definition heap : Type := gmap loc ndarray.

(** ** The cube object *)

(** A pydicom [Dataset], kept opaque: no function embedded here reads one. *)
Definition Dataset : Type := list string.

(** [self.dicom_data]: the empty dict [DosCube.__init__] falls back to, or an
    [AccompanyingDicomData] object, kept as the comment lines it stands for. *)
Inductive dicom : Type :=
| DicomEmptyDict
| DicomObject (lines : list string).

Record Cube : Type := mk_Cube {
  header_set : bool;
  version : string;
  modality : string;
  created_by : string;
  creation_info : string;
  primary_view : string;
  data_type : string;
  num_bytes : option Z;
  byte_order : string;
  patient_name : string;
  patient_id : string;
  slice_dimension : option Z;
  pixel_size : option float;
  slice_distance : option float;
  slice_thickness : option float;
  slice_number : option Z;
  xoffset : num;
  dimx : option Z;
  yoffset : num;
  dimy : option Z;
  zoffset : num;
  dimz : option Z;
  z_table : bool;
  slice_pos : list float;
  basename : string;
  common_meta_dicom_data : option Dataset;
  common_dicom_data : option Dataset;
  file_specific_dicom_data : option Dataset;
  format_str : option string;
  pydata_type : option dtype;
  cube : option loc;
  dicom_data : option dicom
}.

(** Attribute assignments [self.x = v]. *)
Definition set_header_set v (c : Cube) : Cube :=
  mk_Cube v c.(version) c.(modality) c.(created_by) c.(creation_info) c.(primary_view) c.(data_type) c.(num_bytes) c.(byte_order) c.(patient_name) c.(patient_id) c.(slice_dimension) c.(pixel_size) c.(slice_distance) c.(slice_thickness) c.(slice_number) c.(xoffset) c.(dimx) c.(yoffset) c.(dimy) c.(zoffset) c.(dimz) c.(z_table) c.(slice_pos) c.(basename) c.(common_meta_dicom_data) c.(common_dicom_data) c.(file_specific_dicom_data) c.(format_str) c.(pydata_type) c.(cube) c.(dicom_data).
Definition set_version v (c : Cube) : Cube :=
  mk_Cube c.(header_set) v c.(modality) c.(created_by) c.(creation_info) c.(primary_view) c.(data_type) c.(num_bytes) c.(byte_order) c.(patient_name) c.(patient_id) c.(slice_dimension) c.(pixel_size) c.(slice_distance) c.(slice_thickness) c.(slice_number) c.(xoffset) c.(dimx) c.(yoffset) c.(dimy) c.(zoffset) c.(dimz) c.(z_table) c.(slice_pos) c.(basename) c.(common_meta_dicom_data) c.(common_dicom_data) c.(file_specific_dicom_data) c.(format_str) c.(pydata_type) c.(cube) c.(dicom_data).
Definition set_modality v (c : Cube) : Cube :=
  mk_Cube c.(header_set) c.(version) v c.(created_by) c.(creation_info) c.(primary_view) c.(data_type) c.(num_bytes) c.(byte_order) c.(patient_name) c.(patient_id) c.(slice_dimension) c.(pixel_size) c.(slice_distance) c.(slice_thickness) c.(slice_number) c.(xoffset) c.(dimx) c.(yoffset) c.(dimy) c.(zoffset) c.(dimz) c.(z_table) c.(slice_pos) c.(basename) c.(common_meta_dicom_data) c.(common_dicom_data) c.(file_specific_dicom_data) c.(format_str) c.(pydata_type) c.(cube) c.(dicom_data).
Definition set_created_by v (c : Cube) : Cube :=
  mk_Cube c.(header_set) c.(version) c.(modality) v c.(creation_info) c.(primary_view) c.(data_type) c.(num_bytes) c.(byte_order) c.(patient_name) c.(patient_id) c.(slice_dimension) c.(pixel_size) c.(slice_distance) c.(slice_thickness) c.(slice_number) c.(xoffset) c.(dimx) c.(yoffset) c.(dimy) c.(zoffset) c.(dimz) c.(z_table) c.(slice_pos) c.(basename) c.(common_meta_dicom_data) c.(common_dicom_data) c.(file_specific_dicom_data) c.(format_str) c.(pydata_type) c.(cube) c.(dicom_data).
Definition set_creation_info v (c : Cube) : Cube :=
  mk_Cube c.(header_set) c.(version) c.(modality) c.(created_by) v c.(primary_view) c.(data_type) c.(num_bytes) c.(byte_order) c.(patient_name) c.(patient_id) c.(slice_dimension) c.(pixel_size) c.(slice_distance) c.(slice_thickness) c.(slice_number) c.(xoffset) c.(dimx) c.(yoffset) c.(dimy) c.(zoffset) c.(dimz) c.(z_table) c.(slice_pos) c.(basename) c.(common_meta_dicom_data) c.(common_dicom_data) c.(file_specific_dicom_data) c.(format_str) c.(pydata_type) c.(cube) c.(dicom_data).
Definition set_primary_view v (c : Cube) : Cube :=
  mk_Cube c.(header_set) c.(version) c.(modality) c.(created_by) c.(creation_info) v c.(data_type) c.(num_bytes) c.(byte_order) c.(patient_name) c.(patient_id) c.(slice_dimension) c.(pixel_size) c.(slice_distance) c.(slice_thickness) c.(slice_number) c.(xoffset) c.(dimx) c.(yoffset) c.(dimy) c.(zoffset) c.(dimz) c.(z_table) c.(slice_pos) c.(basename) c.(common_meta_dicom_data) c.(common_dicom_data) c.(file_specific_dicom_data) c.(format_str) c.(pydata_type) c.(cube) c.(dicom_data).
Definition set_data_type v (c : Cube) : Cube :=
  mk_Cube c.(header_set) c.(version) c.(modality) c.(created_by) c.(creation_info) c.(primary_view) v c.(num_bytes) c.(byte_order) c.(patient_name) c.(patient_id) c.(slice_dimension) c.(pixel_size) c.(slice_distance) c.(slice_thickness) c.(slice_number) c.(xoffset) c.(dimx) c.(yoffset) c.(dimy) c.(zoffset) c.(dimz) c.(z_table) c.(slice_pos) c.(basename) c.(common_meta_dicom_data) c.(common_dicom_data) c.(file_specific_dicom_data) c.(format_str) c.(pydata_type) c.(cube) c.(dicom_data).
Definition set_num_bytes v (c : Cube) : Cube :=
  mk_Cube c.(header_set) c.(version) c.(modality) c.(created_by) c.(creation_info) c.(primary_view) c.(data_type) v c.(byte_order) c.(patient_name) c.(patient_id) c.(slice_dimension) c.(pixel_size) c.(slice_distance) c.(slice_thickness) c.(slice_number) c.(xoffset) c.(dimx) c.(yoffset) c.(dimy) c.(zoffset) c.(dimz) c.(z_table) c.(slice_pos) c.(basename) c.(common_meta_dicom_data) c.(common_dicom_data) c.(file_specific_dicom_data) c.(format_str) c.(pydata_type) c.(cube) c.(dicom_data).
Definition set_byte_order v (c : Cube) : Cube :=
  mk_Cube c.(header_set) c.(version) c.(modality) c.(created_by) c.(creation_info) c.(primary_view) c.(data_type) c.(num_bytes) v c.(patient_name) c.(patient_id) c.(slice_dimension) c.(pixel_size) c.(slice_distance) c.(slice_thickness) c.(slice_number) c.(xoffset) c.(dimx) c.(yoffset) c.(dimy) c.(zoffset) c.(dimz) c.(z_table) c.(slice_pos) c.(basename) c.(common_meta_dicom_data) c.(common_dicom_data) c.(file_specific_dicom_data) c.(format_str) c.(pydata_type) c.(cube) c.(dicom_data).
Definition set_patient_name v (c : Cube) : Cube :=
  mk_Cube c.(header_set) c.(version) c.(modality) c.(created_by) c.(creation_info) c.(primary_view) c.(data_type) c.(num_bytes) c.(byte_order) v c.(patient_id) c.(slice_dimension) c.(pixel_size) c.(slice_distance) c.(slice_thickness) c.(slice_number) c.(xoffset) c.(dimx) c.(yoffset) c.(dimy) c.(zoffset) c.(dimz) c.(z_table) c.(slice_pos) c.(basename) c.(common_meta_dicom_data) c.(common_dicom_data) c.(file_specific_dicom_data) c.(format_str) c.(pydata_type) c.(cube) c.(dicom_data).
Definition set_patient_id v (c : Cube) : Cube :=
  mk_Cube c.(header_set) c.(version) c.(modality) c.(created_by) c.(creation_info) c.(primary_view) c.(data_type) c.(num_bytes) c.(byte_order) c.(patient_name) v c.(slice_dimension) c.(pixel_size) c.(slice_distance) c.(slice_thickness) c.(slice_number) c.(xoffset) c.(dimx) c.(yoffset) c.(dimy) c.(zoffset) c.(dimz) c.(z_table) c.(slice_pos) c.(basename) c.(common_meta_dicom_data) c.(common_dicom_data) c.(file_specific_dicom_data) c.(format_str) c.(pydata_type) c.(cube) c.(dicom_data).
Definition set_slice_dimension v (c : Cube) : Cube :=
  mk_Cube c.(header_set) c.(version) c.(modality) c.(created_by) c.(creation_info) c.(primary_view) c.(data_type) c.(num_bytes) c.(byte_order) c.(patient_name) c.(patient_id) v c.(pixel_size) c.(slice_distance) c.(slice_thickness) c.(slice_number) c.(xoffset) c.(dimx) c.(yoffset) c.(dimy) c.(zoffset) c.(dimz) c.(z_table) c.(slice_pos) c.(basename) c.(common_meta_dicom_data) c.(common_dicom_data) c.(file_specific_dicom_data) c.(format_str) c.(pydata_type) c.(cube) c.(dicom_data).
Definition set_pixel_size v (c : Cube) : Cube :=
  mk_Cube c.(header_set) c.(version) c.(modality) c.(created_by) c.(creation_info) c.(primary_view) c.(data_type) c.(num_bytes) c.(byte_order) c.(patient_name) c.(patient_id) c.(slice_dimension) v c.(slice_distance) c.(slice_thickness) c.(slice_number) c.(xoffset) c.(dimx) c.(yoffset) c.(dimy) c.(zoffset) c.(dimz) c.(z_table) c.(slice_pos) c.(basename) c.(common_meta_dicom_data) c.(common_dicom_data) c.(file_specific_dicom_data) c.(format_str) c.(pydata_type) c.(cube) c.(dicom_data).
Definition set_slice_distance v (c : Cube) : Cube :=
  mk_Cube c.(header_set) c.(version) c.(modality) c.(created_by) c.(creation_info) c.(primary_view) c.(data_type) c.(num_bytes) c.(byte_order) c.(patient_name) c.(patient_id) c.(slice_dimension) c.(pixel_size) v c.(slice_thickness) c.(slice_number) c.(xoffset) c.(dimx) c.(yoffset) c.(dimy) c.(zoffset) c.(dimz) c.(z_table) c.(slice_pos) c.(basename) c.(common_meta_dicom_data) c.(common_dicom_data) c.(file_specific_dicom_data) c.(format_str) c.(pydata_type) c.(cube) c.(dicom_data).
Definition set_slice_thickness v (c : Cube) : Cube :=
  mk_Cube c.(header_set) c.(version) c.(modality) c.(created_by) c.(creation_info) c.(primary_view) c.(data_type) c.(num_bytes) c.(byte_order) c.(patient_name) c.(patient_id) c.(slice_dimension) c.(pixel_size) c.(slice_distance) v c.(slice_number) c.(xoffset) c.(dimx) c.(yoffset) c.(dimy) c.(zoffset) c.(dimz) c.(z_table) c.(slice_pos) c.(basename) c.(common_meta_dicom_data) c.(common_dicom_data) c.(file_specific_dicom_data) c.(format_str) c.(pydata_type) c.(cube) c.(dicom_data).
Definition set_slice_number v (c : Cube) : Cube :=
  mk_Cube c.(header_set) c.(version) c.(modality) c.(created_by) c.(creation_info) c.(primary_view) c.(data_type) c.(num_bytes) c.(byte_order) c.(patient_name) c.(patient_id) c.(slice_dimension) c.(pixel_size) c.(slice_distance) c.(slice_thickness) v c.(xoffset) c.(dimx) c.(yoffset) c.(dimy) c.(zoffset) c.(dimz) c.(z_table) c.(slice_pos) c.(basename) c.(common_meta_dicom_data) c.(common_dicom_data) c.(file_specific_dicom_data) c.(format_str) c.(pydata_type) c.(cube) c.(dicom_data).
Definition set_xoffset v (c : Cube) : Cube :=
  mk_Cube c.(header_set) c.(version) c.(modality) c.(created_by) c.(creation_info) c.(primary_view) c.(data_type) c.(num_bytes) c.(byte_order) c.(patient_name) c.(patient_id) c.(slice_dimension) c.(pixel_size) c.(slice_distance) c.(slice_thickness) c.(slice_number) v c.(dimx) c.(yoffset) c.(dimy) c.(zoffset) c.(dimz) c.(z_table) c.(slice_pos) c.(basename) c.(common_meta_dicom_data) c.(common_dicom_data) c.(file_specific_dicom_data) c.(format_str) c.(pydata_type) c.(cube) c.(dicom_data).
Definition set_dimx v (c : Cube) : Cube :=
  mk_Cube c.(header_set) c.(version) c.(modality) c.(created_by) c.(creation_info) c.(primary_view) c.(data_type) c.(num_bytes) c.(byte_order) c.(patient_name) c.(patient_id) c.(slice_dimension) c.(pixel_size) c.(slice_distance) c.(slice_thickness) c.(slice_number) c.(xoffset) v c.(yoffset) c.(dimy) c.(zoffset) c.(dimz) c.(z_table) c.(slice_pos) c.(basename) c.(common_meta_dicom_data) c.(common_dicom_data) c.(file_specific_dicom_data) c.(format_str) c.(pydata_type) c.(cube) c.(dicom_data).
Definition set_yoffset v (c : Cube) : Cube :=
  mk_Cube c.(header_set) c.(version) c.(modality) c.(created_by) c.(creation_info) c.(primary_view) c.(data_type) c.(num_bytes) c.(byte_order) c.(patient_name) c.(patient_id) c.(slice_dimension) c.(pixel_size) c.(slice_distance) c.(slice_thickness) c.(slice_number) c.(xoffset) c.(dimx) v c.(dimy) c.(zoffset) c.(dimz) c.(z_table) c.(slice_pos) c.(basename) c.(common_meta_dicom_data) c.(common_dicom_data) c.(file_specific_dicom_data) c.(format_str) c.(pydata_type) c.(cube) c.(dicom_data).
Definition set_dimy v (c : Cube) : Cube :=
  mk_Cube c.(header_set) c.(version) c.(modality) c.(created_by) c.(creation_info) c.(primary_view) c.(data_type) c.(num_bytes) c.(byte_order) c.(patient_name) c.(patient_id) c.(slice_dimension) c.(pixel_size) c.(slice_distance) c.(slice_thickness) c.(slice_number) c.(xoffset) c.(dimx) c.(yoffset) v c.(zoffset) c.(dimz) c.(z_table) c.(slice_pos) c.(basename) c.(common_meta_dicom_data) c.(common_dicom_data) c.(file_specific_dicom_data) c.(format_str) c.(pydata_type) c.(cube) c.(dicom_data).
Definition set_zoffset v (c : Cube) : Cube :=
  mk_Cube c.(header_set) c.(version) c.(modality) c.(created_by) c.(creation_info) c.(primary_view) c.(data_type) c.(num_bytes) c.(byte_order) c.(patient_name) c.(patient_id) c.(slice_dimension) c.(pixel_size) c.(slice_distance) c.(slice_thickness) c.(slice_number) c.(xoffset) c.(dimx) c.(yoffset) c.(dimy) v c.(dimz) c.(z_table) c.(slice_pos) c.(basename) c.(common_meta_dicom_data) c.(common_dicom_data) c.(file_specific_dicom_data) c.(format_str) c.(pydata_type) c.(cube) c.(dicom_data).
Definition set_dimz v (c : Cube) : Cube :=
  mk_Cube c.(header_set) c.(version) c.(modality) c.(created_by) c.(creation_info) c.(primary_view) c.(data_type) c.(num_bytes) c.(byte_order) c.(patient_name) c.(patient_id) c.(slice_dimension) c.(pixel_size) c.(slice_distance) c.(slice_thickness) c.(slice_number) c.(xoffset) c.(dimx) c.(yoffset) c.(dimy) c.(zoffset) v c.(z_table) c.(slice_pos) c.(basename) c.(common_meta_dicom_data) c.(common_dicom_data) c.(file_specific_dicom_data) c.(format_str) c.(pydata_type) c.(cube) c.(dicom_data).
Definition set_z_table v (c : Cube) : Cube :=
  mk_Cube c.(header_set) c.(version) c.(modality) c.(created_by) c.(creation_info) c.(primary_view) c.(data_type) c.(num_bytes) c.(byte_order) c.(patient_name) c.(patient_id) c.(slice_dimension) c.(pixel_size) c.(slice_distance) c.(slice_thickness) c.(slice_number) c.(xoffset) c.(dimx) c.(yoffset) c.(dimy) c.(zoffset) c.(dimz) v c.(slice_pos) c.(basename) c.(common_meta_dicom_data) c.(common_dicom_data) c.(file_specific_dicom_data) c.(format_str) c.(pydata_type) c.(cube) c.(dicom_data).
Definition set_slice_pos v (c : Cube) : Cube :=
  mk_Cube c.(header_set) c.(version) c.(modality) c.(created_by) c.(creation_info) c.(primary_view) c.(data_type) c.(num_bytes) c.(byte_order) c.(patient_name) c.(patient_id) c.(slice_dimension) c.(pixel_size) c.(slice_distance) c.(slice_thickness) c.(slice_number) c.(xoffset) c.(dimx) c.(yoffset) c.(dimy) c.(zoffset) c.(dimz) c.(z_table) v c.(basename) c.(common_meta_dicom_data) c.(common_dicom_data) c.(file_specific_dicom_data) c.(format_str) c.(pydata_type) c.(cube) c.(dicom_data).
Definition set_basename v (c : Cube) : Cube :=
  mk_Cube c.(header_set) c.(version) c.(modality) c.(created_by) c.(creation_info) c.(primary_view) c.(data_type) c.(num_bytes) c.(byte_order) c.(patient_name) c.(patient_id) c.(slice_dimension) c.(pixel_size) c.(slice_distance) c.(slice_thickness) c.(slice_number) c.(xoffset) c.(dimx) c.(yoffset) c.(dimy) c.(zoffset) c.(dimz) c.(z_table) c.(slice_pos) v c.(common_meta_dicom_data) c.(common_dicom_data) c.(file_specific_dicom_data) c.(format_str) c.(pydata_type) c.(cube) c.(dicom_data).
Definition set_common_meta_dicom_data v (c : Cube) : Cube :=
  mk_Cube c.(header_set) c.(version) c.(modality) c.(created_by) c.(creation_info) c.(primary_view) c.(data_type) c.(num_bytes) c.(byte_order) c.(patient_name) c.(patient_id) c.(slice_dimension) c.(pixel_size) c.(slice_distance) c.(slice_thickness) c.(slice_number) c.(xoffset) c.(dimx) c.(yoffset) c.(dimy) c.(zoffset) c.(dimz) c.(z_table) c.(slice_pos) c.(basename) v c.(common_dicom_data) c.(file_specific_dicom_data) c.(format_str) c.(pydata_type) c.(cube) c.(dicom_data).
Definition set_common_dicom_data v (c : Cube) : Cube :=
  mk_Cube c.(header_set) c.(version) c.(modality) c.(created_by) c.(creation_info) c.(primary_view) c.(data_type) c.(num_bytes) c.(byte_order) c.(patient_name) c.(patient_id) c.(slice_dimension) c.(pixel_size) c.(slice_distance) c.(slice_thickness) c.(slice_number) c.(xoffset) c.(dimx) c.(yoffset) c.(dimy) c.(zoffset) c.(dimz) c.(z_table) c.(slice_pos) c.(basename) c.(common_meta_dicom_data) v c.(file_specific_dicom_data) c.(format_str) c.(pydata_type) c.(cube) c.(dicom_data).
Definition set_file_specific_dicom_data v (c : Cube) : Cube :=
  mk_Cube c.(header_set) c.(version) c.(modality) c.(created_by) c.(creation_info) c.(primary_view) c.(data_type) c.(num_bytes) c.(byte_order) c.(patient_name) c.(patient_id) c.(slice_dimension) c.(pixel_size) c.(slice_distance) c.(slice_thickness) c.(slice_number) c.(xoffset) c.(dimx) c.(yoffset) c.(dimy) c.(zoffset) c.(dimz) c.(z_table) c.(slice_pos) c.(basename) c.(common_meta_dicom_data) c.(common_dicom_data) v c.(format_str) c.(pydata_type) c.(cube) c.(dicom_data).
Definition set_format_str v (c : Cube) : Cube :=
  mk_Cube c.(header_set) c.(version) c.(modality) c.(created_by) c.(creation_info) c.(primary_view) c.(data_type) c.(num_bytes) c.(byte_order) c.(patient_name) c.(patient_id) c.(slice_dimension) c.(pixel_size) c.(slice_distance) c.(slice_thickness) c.(slice_number) c.(xoffset) c.(dimx) c.(yoffset) c.(dimy) c.(zoffset) c.(dimz) c.(z_table) c.(slice_pos) c.(basename) c.(common_meta_dicom_data) c.(common_dicom_data) c.(file_specific_dicom_data) v c.(pydata_type) c.(cube) c.(dicom_data).
Definition set_pydata_type v (c : Cube) : Cube :=
  mk_Cube c.(header_set) c.(version) c.(modality) c.(created_by) c.(creation_info) c.(primary_view) c.(data_type) c.(num_bytes) c.(byte_order) c.(patient_name) c.(patient_id) c.(slice_dimension) c.(pixel_size) c.(slice_distance) c.(slice_thickness) c.(slice_number) c.(xoffset) c.(dimx) c.(yoffset) c.(dimy) c.(zoffset) c.(dimz) c.(z_table) c.(slice_pos) c.(basename) c.(common_meta_dicom_data) c.(common_dicom_data) c.(file_specific_dicom_data) c.(format_str) v c.(cube) c.(dicom_data).
Definition set_cube v (c : Cube) : Cube :=
  mk_Cube c.(header_set) c.(version) c.(modality) c.(created_by) c.(creation_info) c.(primary_view) c.(data_type) c.(num_bytes) c.(byte_order) c.(patient_name) c.(patient_id) c.(slice_dimension) c.(pixel_size) c.(slice_distance) c.(slice_thickness) c.(slice_number) c.(xoffset) c.(dimx) c.(yoffset) c.(dimy) c.(zoffset) c.(dimz) c.(z_table) c.(slice_pos) c.(basename) c.(common_meta_dicom_data) c.(common_dicom_data) c.(file_specific_dicom_data) c.(format_str) c.(pydata_type) v c.(dicom_data).
Definition set_dicom_data v (c : Cube) : Cube :=
  mk_Cube c.(header_set) c.(version) c.(modality) c.(created_by) c.(creation_info) c.(primary_view) c.(data_type) c.(num_bytes) c.(byte_order) c.(patient_name) c.(patient_id) c.(slice_dimension) c.(pixel_size) c.(slice_distance) c.(slice_thickness) c.(slice_number) c.(xoffset) c.(dimx) c.(yoffset) c.(dimy) c.(zoffset) c.(dimz) c.(z_table) c.(slice_pos) c.(basename) c.(common_meta_dicom_data) c.(common_dicom_data) c.(file_specific_dicom_data) c.(format_str) c.(pydata_type) c.(cube) v.

(** ** Compatibility of two cubes *)

(** Python's [x != y] on an attribute that holds an [int] or the sentinel. *)
Definition py_ne_int (x y : option Z) : bool :=
  match x, y with
  | Some a, Some b => negb (Z.eqb a b)
  | None, None => false
  | _, _ => true
  end.

(** Python's [x != y] on an attribute that holds a [float] or the sentinel. *)
Definition py_ne_float (x y : option float) : bool :=
  match x, y with
  | Some a, Some b => negb (PrimFloat.eqb a b)
  | None, None => false
  | _, _ => true
  end.

(** [x - y] on two such attributes: the sentinel is a [str], and [str - _]
    raises [TypeError]. *)
Definition py_sub_float (x y : option float) : result float :=
  match x, y with
  | Some a, Some b => Ok (PrimFloat.sub a b)
  | _, _ => Raise TypeError
  end.

Definition eps : float := 1e-5%float.

(** [Cube.check_compatibility(a, b)], a static method. *)
Definition check_compatibility (a b : Cube) : result bool :=
  if py_ne_int a.(dimx) b.(dimx) then Ok false
  else if py_ne_int a.(dimy) b.(dimy) then Ok false
  else if py_ne_int a.(dimz) b.(dimz) then Ok false
  else
    d ← py_sub_float a.(pixel_size) b.(pixel_size);
    if PrimFloat.ltb eps d then Ok false
    else if py_ne_float a.(slice_distance) b.(slice_distance) then Ok false
    else Ok true.

(** [Cube.is_compatible(self, other)]. *)
Definition is_compatible (self other : Cube) : result bool :=
  check_compatibility self other.

(** ** The format string and the element type *)

(** [self.format_str += ch]: the attribute has to exist. *)
Definition append_format_str (ch : string) : M Cube unit :=
  self ← get;
  match self.(format_str) with
  | Some f => put (set_format_str (Some (f ++ ch)) self)
  | None => raise (AttributeError "format_str")
  end.

(** [Cube._set_number_of_bytes].  The message of the closing
    [logger.debug] is built from [self.format_str], which has to exist. *)
Definition _set_number_of_bytes : M Cube unit :=
  self ← get;
  (if String.eqb self.(data_type) "integer" then
     when (bool_decide (self.(num_bytes) = Some 1))
       (append_format_str "b";; modify (set_pydata_type (Some np_int8)));;
     self ← get;
     when (bool_decide (self.(num_bytes) = Some 2))
       (append_format_str "h";; modify (set_pydata_type (Some np_int16)));;
     self ← get;
     when (bool_decide (self.(num_bytes) = Some 4))
       (append_format_str "i";; modify (set_pydata_type (Some np_int32)))
   else if String.eqb self.(data_type) "float" || String.eqb self.(data_type) "double" then
     when (bool_decide (self.(num_bytes) = Some 4))
       (append_format_str "f";; modify (set_pydata_type (Some np_float32)));;
     self ← get;
     when (bool_decide (self.(num_bytes) = Some 8))
       (append_format_str "d";; modify (set_pydata_type (Some np_double)))
   else
     raise (IOError "Unsupported format."));;
  self ← get;
  match self.(format_str) with
  | Some _ => ret tt
  | None => raise (AttributeError "format_str")
  end.

(** [Cube._set_format_str]. *)
Definition _set_format_str : M Cube unit :=
  self ← get;
  (if String.eqb self.(byte_order) "vms" then modify (set_format_str (Some "<"))
   else if String.eqb self.(byte_order) "aix" then modify (set_format_str (Some ">"))
   else ret tt);;
  _set_number_of_bytes.

(** ** Numbers *)

(** [float(z)] for a Python [int]: the binary64 nearest to [z], ties to even
    (an infinity where Python raises [OverflowError], from 2^1024 on). *)
Definition float_of_Z (z : Z) : float :=
  SF2Prim (binary_normalize prec emax z 0 false).

(** The float of a number where it meets a float in [*], [/] or [+]: an
    [int] that rounds beyond the largest float raises [OverflowError]. *)
Definition to_float (n : num) : result float :=
  match n with
  | PyFloat x => Ok x
  | PyInt z =>
      let x := float_of_Z z in
      if PrimFloat.is_infinity x then Raise OverflowError else Ok x
  | PyEmptyStr => Raise TypeError
  end.

(** The integer part of a float, toward zero; [None] for nan and infinities. *)
Definition Z_of_float_trunc (x : float) : option Z :=
  match Prim2SF x with
  | S754_zero _ => Some 0
  | S754_finite s m e =>
      let v := if 0 <=? e then Z.pos m * 2 ^ e else Z.pos m / 2 ^ (- e) in
      Some (if s then - v else v)
  | _ => None
  end.

(** Rounding a binary64 to the nearest binary32 (kept as the binary64 that
    equals it). *)
Definition to_float32 (x : float) : float :=
  match Prim2SF x with
  | S754_finite s m e => SF2Prim (binary_round 24 128 s m e)
  | _ => x
  end.

Definition int_bits (dt : dtype) : Z :=
  match dt with np_int8 => 8 | np_int16 => 16 | np_int32 => 32 | _ => 64 end.

Definition int_in_range (dt : dtype) (z : Z) : bool :=
  (- 2 ^ (int_bits dt - 1) <=? z) && (z <? 2 ^ (int_bits dt - 1)).

(** Two's-complement wrap-around to [bits] bits. *)
Definition wrap_int (bits z : Z) : Z :=
  (z + 2 ^ (bits - 1)) mod 2 ^ bits - 2 ^ (bits - 1).

(** numpy's conversion of an element of an array to the element type [dt].
    An integer wraps around, or becomes the nearest float. *)
Definition np_of_int (dt : dtype) (z : Z) : scalar :=
  match dt with
  | np_double => SFloat (float_of_Z z)
  | np_float32 => SFloat (to_float32 (float_of_Z z))
  | _ => SInt (wrap_int (int_bits dt) z)
  end.

(** A float is rounded to binary32, or cut toward zero to an integer.  C
    defines the integer only when the integer part fits the type: [None] for
    nan, the infinities and what lies outside the type. *)
Definition np_of_float (dt : dtype) (x : float) : option scalar :=
  match dt with
  | np_double => Some (SFloat x)
  | np_float32 => Some (SFloat (to_float32 x))
  | _ => match Z_of_float_trunc x with
         | Some t => if int_in_range dt t then Some (SInt t) else None
         | None => None
         end
  end.

Definition np_convert (dt : dtype) (v : scalar) : option scalar :=
  match v with
  | SInt z => Some (np_of_int dt z)
  | SFloat x => np_of_float dt x
  end.

(** The conversion on assignment and in [np.array(a, dtype)].  Where C
    leaves it undefined the element is what the machine gives, the integer
    [cc dt x] brought into the type. *)
Definition np_cast (cc : dtype -> float -> Z) (dt : dtype) (v : scalar) : scalar :=
  match v with
  | SInt z => np_of_int dt z
  | SFloat x => default (SInt (wrap_int (int_bits dt) (cc dt x))) (np_of_float dt x)
  end.

(** Storing a Python [int] into an element.  Within an integer type every
    numpy release stores the value itself; outside, numpy 2 raises
    [OverflowError] and older releases wrap or promote: the model raises, and
    every statement below keeps the value within the type.  Into a float
    type the [int] goes through [float(z)]. *)
Definition np_store_int (dt : dtype) (z : Z) : result scalar :=
  if is_integer_dtype dt then
    if int_in_range dt z then Ok (SInt z) else Raise OverflowError
  else
    x ← to_float (PyInt z);
    Ok (SFloat (match dt with np_float32 => to_float32 x | _ => x end)).

(** ** Python sequences *)

(** [range(n)]; the sentinel is no integer. *)
Definition range (n : Z) : list Z := map Z.of_nat (seq 0 (Z.to_nat n)).

Definition py_range (n : option Z) : result (list Z) :=
  match n with
  | Some n => Ok (range n)
  | None => Raise TypeError
  end.

(** [l[i]]: a negative index counts from the end, an index out of range raises. *)
Definition py_list_index {A} (l : list A) (i : Z) : result A :=
  let n := Z.of_nat (List.length l) in
  let i' := if i <? 0 then i + n else i in
  if (i' <? 0) then Raise IndexError
  else match l !! Z.to_nat i' with
       | Some a => Ok a
       | None => Raise IndexError
       end.

(** Loop control: what the body of a [for] did last. *)
Inductive ctl : Type := Continue | Break.

(** [for x in xs: body], with the loop's local variables in [acc]; [Break]
    leaves the loop. *)
Fixpoint for_in {S A K} (xs : list A) (acc : K) (body : A -> K -> M S (ctl * K))
  : M S K :=
  match xs with
  | [] => ret acc
  | x :: xs' =>
      '(c, acc') ← body x acc;
      match c with
      | Continue => for_in xs' acc' body
      | Break => ret acc'
      end
  end.

(** ** Arrays in the store *)

Definition shape_size (sh : nat * nat * nat) : nat :=
  let '(n0, n1, n2) := sh in (n0 * n1 * n2)%nat.

Definition flat_index (sh : nat * nat * nat) (k j i : nat) : nat :=
  let '(n0, n1, n2) := sh in ((k * n1 + j) * n2 + i)%nat.

Definition in_shape (sh : nat * nat * nat) (k j i : nat) : bool :=
  let '(n0, n1, n2) := sh in (k <? n0)%nat && (j <? n1)%nat && (i <? n2)%nat.

(** [np.zeros(shape, dtype)] and [np.ones(shape, dtype) * value] as values. *)
Definition zeros (sh : nat * nat * nat) (dt : dtype) : ndarray :=
  mk_ndarray dt sh (replicate (shape_size sh) (scalar_zero dt)).

Definition full (sh : nat * nat * nat) (dt : dtype) (v : scalar) : ndarray :=
  mk_ndarray dt sh (replicate (shape_size sh) v).

(** A dimension given to numpy: an [int], not negative. *)
Definition py_dim (d : option Z) : result nat :=
  match d with
  | None => Raise TypeError
  | Some z => if z <? 0 then Raise ValueError else Ok (Z.to_nat z)
  end.

(** Allocation: the new array gets an address no array has. *)
Definition alloc (a : ndarray) : M heap loc :=
  fun h => let l := fresh (dom h) in (Ok l, <[l := a]> h).

Definition deref (l : loc) : M heap ndarray :=
  fun h => match h !! l with
           | Some a => (Ok a, h)
           | None => (Raise (PyException "dangling array reference"), h)
           end.

(** [a[k][j][i]] *)
Definition np_getitem (a : ndarray) (k j i : nat) : result scalar :=
  if in_shape a.(arr_shape) k j i then
    match a.(arr_data) !! flat_index a.(arr_shape) k j i with
    | Some v => Ok v
    | None => Raise IndexError
    end
  else Raise IndexError.

(** [a[k][j][i] = z] for a Python [int] [z], on an array that is a local
    variable of the running method: the array is the state. *)
Definition np_setitem_int (k j i : nat) (z : Z) : M ndarray unit :=
  a ← get;
  if in_shape a.(arr_shape) k j i then
    v ← lift (np_store_int a.(arr_dtype) z);
    put (mk_ndarray a.(arr_dtype) a.(arr_shape)
           (<[flat_index a.(arr_shape) k j i := v]> a.(arr_data)))
  else raise IndexError.

(** ** The state a method runs in *)

(** The files: a path and what the file holds, a byte per character. *)
Definition files : Type := gmap string string.

Record state : Type := mk_state {
  self : Cube;
  mem : heap;
  fs : files
}.

Definition on_self {A} (m : M Cube A) : M state A :=
  fun s => let '(r, c) := m s.(self) in (r, mk_state c s.(mem) s.(fs)).
Definition on_mem {A} (m : M heap A) : M state A :=
  fun s => let '(r, h) := m s.(mem) in (r, mk_state s.(self) h s.(fs)).
Definition on_fs {A} (m : M files A) : M state A :=
  fun s => let '(r, f) := m s.(fs) in (r, mk_state s.(self) s.(mem) f).
Definition get_self : M state Cube := on_self get.
(** [self.x = v] *)
Definition assign (f : Cube -> Cube) : M state unit := on_self (modify f).
(** Reading an attribute that may not exist. *)
Definition attr {S A} (name : string) (a : option A) : M S A :=
  match a with
  | Some x => ret x
  | None => raise (AttributeError name)
  end.

(** ** Voxel positions *)

(** [x * y] for a float [x] and an attribute [y]: [float * str] raises. *)
Definition py_mul_float (x : float) (y : option float) : result float :=
  match y with
  | Some b => Ok (x * b)%float
  | None => Raise TypeError
  end.

(** [Cube.indices_to_pos(self, indices)] for [indices = [i, j, k]]. *)
Definition indices_to_pos (self : Cube) (indices : Z * Z * Z)
  : result (float * float * float) :=
  let '(i, j, k) := indices in
  xi ← to_float (PyInt i);
  px ← py_mul_float (xi + 0.5)%float self.(pixel_size);
  xo ← to_float self.(xoffset);
  yj ← to_float (PyInt j);
  py ← py_mul_float (yj + 0.5)%float self.(pixel_size);
  yo ← to_float self.(yoffset);
  z ← py_list_index self.(slice_pos) k;
  Ok ((px + xo)%float, (py + yo)%float, z).


(** ** Masking by a volume of interest *)

(** The volume of interest, a collaborator of the cube: what
    [voi.get_row_intersections(pos)] returns, [None] being Python's. *)
Record Voi : Type := mk_Voi {
  get_row_intersections : float * float * float -> option (list float)
}.

(** The body of the innermost loop of [mask_by_voi_all]: [k] counts the
    intersections left of the voxel, and the state is the local array [data]. *)
Definition mask_voxel (self : Cube) (intersection : list float) (preset : Z)
    (i_z i_y i_x : Z) (k : Z) : M ndarray (ctl * Z) :=
  pos ← lift (indices_to_pos self (i_x, 0, 0));
  x_k ← lift (py_list_index intersection k);
  let crossed := PrimFloat.ltb x_k pos.1.1 in
  let k := if crossed then k + 1 else k in
  if crossed && (Z.of_nat (List.length intersection) <=? k) then ret (Break, k)
  else
    when (k mod 2 =? 1)
      (np_setitem_int (Z.to_nat i_z) (Z.to_nat i_y) (Z.to_nat i_x) preset);;
    ret (Continue, k).

(** The body of the loop over [i_y]. *)
Definition mask_row (self : Cube) (voi : Voi) (preset : Z) (i_z i_y : Z) (_ : unit)
  : M ndarray (ctl * unit) :=
  pos ← lift (indices_to_pos self (0, i_y, i_z));
  match voi.(get_row_intersections) pos with
  | None => ret (Break, tt)
  | Some intersection =>
      when (0 <? Z.of_nat (List.length intersection))
        (xs ← lift (py_range self.(dimx));
         for_in xs 0 (mask_voxel self intersection preset i_z i_y);;
         ret tt);;
      ret (Continue, tt)
  end.

(** The loops of [mask_by_voi_all] over the local array [data]. *)
Definition mask_loops (self : Cube) (voi : Voi) (preset : Z) : M ndarray unit :=
  zs ← lift (py_range self.(dimz));
  for_in zs tt (fun i_z _ =>
    ys ← lift (py_range self.(dimy));
    for_in ys tt (mask_row self voi preset i_z);;
    ret (Continue, tt));;
  ret tt.

(** [Cube.mask_by_voi_all(self, voi, preset, data_type)].  The array [data]
    is local until [self.cube = data], where it enters the store. *)
Definition mask_by_voi_all (voi : Voi) (preset : Z) (data_type' : dtype) : M state unit :=
  self ← get_self;
  nz ← lift (py_dim self.(dimz));
  ny ← lift (py_dim self.(dimy));
  nx ← lift (py_dim self.(dimx));
  data ← lift (exec (when (negb (preset =? 0)) (mask_loops self voi preset))
                    (zeros (nz, ny, nx) data_type'));
  l ← on_mem (alloc data);
  assign (set_cube (Some l)).

(** ** Building an empty cube *)

(** [Cube.create_empty_cube(self, value, dimx, dimy, dimz, pixel_size,
    slice_distance, slice_offset)], for an [int] [value] and [float] sizes. *)
Definition create_empty_cube (value dimx' dimy' dimz' : Z)
    (pixel_size' slice_distance' slice_offset : float) : M state unit :=
  assign (set_dimx (Some dimx'));;
  assign (set_dimy (Some dimy'));;
  assign (set_dimz (Some dimz'));;
  assign (set_slice_number (Some dimz'));;
  assign (set_pixel_size (Some pixel_size'));;
  assign (set_slice_distance (Some slice_distance'));;
  assign (set_slice_thickness (Some slice_distance'));;
  nz ← lift (py_dim (Some dimz'));
  ny ← lift (py_dim (Some dimy'));
  nx ← lift (py_dim (Some dimx'));
  v ← lift (np_store_int np_int16 value);
  l ← on_mem (alloc (full (nz, ny, nx) np_int16 v));
  assign (set_cube (Some l));;
  assign (set_slice_dimension (Some dimx'));;
  assign (set_num_bytes (Some 2));;
  assign (set_data_type "integer");;
  assign (set_pydata_type (Some np_int16));;
  assign (set_slice_pos
            (map (fun i => (slice_distance' * float_of_Z i + slice_offset)%float)
                 (range dimz')));;
  assign (set_header_set true);;
  assign (set_patient_id "").

(** ** Merging *)

(** [Cube.merge_zero(self, cube)]:
    [self.cube[self.cube == 0] = cube.cube[self.cube == 0]].  The right-hand
    side is read first; a mask of another shape than the indexed array is an
    [IndexError]; the assignment converts to the element type of [self.cube],
    [cc] being the machine's conversion where C defines none. *)
Definition merge_zero (cc : dtype -> float -> Z) (other : Cube) : M state unit :=
  self ← get_self;
  lb ← attr "cube" other.(cube);
  la ← attr "cube" self.(cube);
  b ← on_mem (deref lb);
  a ← on_mem (deref la);
  if bool_decide (a.(arr_shape) = b.(arr_shape)) then
    on_mem (modify (insert la
      (mk_ndarray a.(arr_dtype) a.(arr_shape)
         (zip_with (fun x y => if scalar_is_zero x then np_cast cc a.(arr_dtype) y else x)
                   a.(arr_data) b.(arr_data)))))
  else raise IndexError.

(** ** Python strings *)

(** A text is a [string] whose characters are the code points below
    U+0100.  [str.isspace] on one of them: the ASCII white space, the
    separators U+001C to U+001F, U+0085 and U+00A0. *)
Definition is_space (a : ascii) : bool :=
  let n := nat_of_ascii a in
  ((9 <=? n) && (n <=? 13) || (28 <=? n) && (n <=? 32)
   || (n =? 133) || (n =? 160))%nat.

Definition newline : ascii := ascii_of_nat 10.
Definition nl : string := String newline "".

(** [s.split(sep)] for a separator of one character. *)
Fixpoint split_on (sep : ascii) (s : string) : list string :=
  match s with
  | EmptyString => [""]
  | String c s' =>
      if Ascii.eqb c sep then "" :: split_on sep s'
      else match split_on sep s' with
           | w :: ws => String c w :: ws
           | [] => [String c ""]
           end
  end.

(** [s.split()]: the maximal runs of characters that are not white space. *)
Fixpoint tokens (s : string) : list string :=
  match s with
  | EmptyString => []
  | String c s' =>
      if is_space c then tokens s'
      else match s' with
           | EmptyString => [String c ""]
           | String c' _ =>
               if is_space c' then String c "" :: tokens s'
               else match tokens s' with
                    | w :: ws => String c w :: ws
                    | [] => [String c ""]
                    end
           end
  end.

(** [re.match(p, s)] for a pattern [p] without special characters, as all
    patterns of this module are: [s] starts with [p]. *)
Definition re_match (p s : string) : bool := String.prefix p s.

Fixpoint string_drop (n : nat) (s : string) : string :=
  match n, s with
  | O, _ => s
  | S n', String _ s' => string_drop n' s'
  | S _, EmptyString => ""
  end.

(** [s.endswith(suffix)] *)
Definition endswith (s suffix : string) : bool :=
  let n := String.length s in
  let m := String.length suffix in
  (m <=? n)%nat && String.eqb (string_drop (n - m) s) suffix.

(** [s.rstrip()] *)
Fixpoint rstrip (s : string) : string :=
  match s with
  | EmptyString => ""
  | String c s' =>
      match rstrip s' with
      | EmptyString => if is_space c then "" else String c ""
      | r => String c r
      end
  end.

(** [s.lstrip()] and [s.strip()] *)
Fixpoint lstrip (s : string) : string :=
  match s with
  | String c s' => if is_space c then lstrip s' else s
  | EmptyString => ""
  end.
Definition strip (s : string) : string := rstrip (lstrip s).

(** [s.replace(old, "", 1)] for a non-empty [old]: the first occurrence of
    [old] is cut out. *)
Fixpoint remove_first (old s : string) : string :=
  if String.prefix old s then string_drop (String.length old) s
  else match s with
       | EmptyString => ""
       | String c s' => String c (remove_first old s')
       end.

(** [s.ljust(w)] and [s.rjust(w)]: padding with spaces to a width. *)
Fixpoint spaces (n : nat) : string :=
  match n with O => "" | S n' => String " " (spaces n') end.
Definition ljust (w : nat) (s : string) : string := s ++ spaces (w - String.length s).
Definition rjust (w : nat) (s : string) : string := spaces (w - String.length s) ++ s.

(** ** Numbers and text *)

(** [str(z)] and ["{:d}".format(z)] *)
Definition str_int (z : Z) : string := NilZero.string_of_int (Z.to_int z).

(** A non-empty run of decimal digits. *)
Definition digits_value (s : string) : option Z :=
  match s with
  | EmptyString => None
  | _ => option_map Z.of_uint (NilEmpty.uint_of_string s)
  end.

Definition is_digit (a : ascii) : bool :=
  let n := nat_of_ascii a in ((48 <=? n) && (n <=? 57))%nat.

(** The digit separator of a numeric text: a [_] stands between two digits
    and nowhere else.  The text without its separators, or [None] when one
    stands elsewhere; [prev] tells whether the character before is a digit. *)
Fixpoint drop_separators (prev : bool) (s : string) : option string :=
  match s with
  | EmptyString => Some ""
  | String c s' =>
      if Ascii.eqb c "_" then
        if prev && match s' with String d _ => is_digit d | EmptyString => false end
        then drop_separators false s'
        else None
      else option_map (String c) (drop_separators (is_digit c) s')
  end.

(** An optional sign and a run of decimal digits. *)
Definition int_literal (s : string) : option Z :=
  match s with
  | String "-" s' => option_map Z.opp (digits_value s')
  | String "+" s' => digits_value s'
  | _ => digits_value s
  end.

Fixpoint count_digits (s : string) : nat :=
  match s with
  | EmptyString => 0
  | String c s' => ((if is_digit c then 1 else 0) + count_digits s')%nat
  end.

(** [int(s)]: white space around the number is dropped, the digits may be
    separated by single [_], and a text of more than 4300 digits is refused
    (the default of [sys.set_int_max_str_digits]). *)
Definition int_of_string (s : string) : result Z :=
  match drop_separators false (strip s) with
  | Some t =>
      if (4300 <? count_digits t)%nat then Raise ValueError
      else match int_literal t with
           | Some z => Ok z
           | None => Raise ValueError
           end
  | None => Raise ValueError
  end.

(** The nearest integer to [n / d] for [0 <= n] and [0 < d], ties to even. *)
Definition div_round_half_even (n d : Z) : Z :=
  let q := n / d in
  let r := n mod d in
  match 2 * r ?= d with
  | Lt => q
  | Gt => q + 1
  | Eq => if Z.even q then q else q + 1
  end.

Fixpoint zeros_string (n : nat) : string :=
  match n with O => "" | S n' => String "0" (zeros_string n') end.

(** ["{:.pf}".format(x)] for [0 < p]: the exact value of [x], rounded to [p]
    decimals, ties to even. *)
Definition format_f (p : nat) (x : float) : string :=
  match Prim2SF x with
  | S754_nan => "nan"
  | S754_infinity s => if s then "-inf" else "inf"
  | S754_zero s => (if s then "-" else "") ++ "0." ++ zeros_string p
  | S754_finite s m e =>
      let scale := 10 ^ Z.of_nat p in
      let n := if 0 <=? e then Z.pos m * 2 ^ e * scale
               else div_round_half_even (Z.pos m * scale) (2 ^ (- e)) in
      let frac := str_int (n mod scale) in
      (if s then "-" else "") ++ str_int (n / scale) ++ "."
        ++ zeros_string (p - String.length frac) ++ frac
  end.

(** The binary64 nearest to [m * 10 ^ e10] for [0 <= m], ties to even, with the
    sign [neg]. *)
Definition float_of_decimal (neg : bool) (m e10 : Z) : float :=
  if m =? 0 then (if neg then (-0)%float else 0%float)
  else if 0 <=? e10 then
    SF2Prim (binary_normalize prec emax ((if neg then - m else m) * 10 ^ e10) 0 false)
  else
    let '(q, e, l) := SFdiv_core_binary prec emax m 0 (10 ^ (- e10)) 0 in
    SF2Prim (binary_round_aux prec emax neg q e l).

(** The text before and after the first occurrence of a character. *)
Fixpoint cut_at (c : ascii) (s : string) : string * option string :=
  match s with
  | EmptyString => ("", None)
  | String a s' =>
      if Ascii.eqb a c then ("", Some s')
      else let '(l, r) := cut_at c s' in (String a l, r)
  end.

Definition lower (a : ascii) : ascii :=
  let n := nat_of_ascii a in
  if ((65 <=? n) && (n <=? 90))%nat then ascii_of_nat (n + 32) else a.

Fixpoint lowercase (s : string) : string :=
  match s with
  | EmptyString => ""
  | String a s' => String (lower a) (lowercase s')
  end.

(** The digits of a mantissa ["ddd.ddd"], ["ddd"], ["ddd."] or [".ddd"]: the
    integer they spell without the point, and the number of decimals. *)
Definition mantissa_of_string (s : string) : option (Z * Z) :=
  let '(ip, fp) := cut_at "." s in
  let fp := default "" fp in
  match ip ++ fp with
  | EmptyString => None
  | ds => option_map (fun d => (Z.of_uint d, Z.of_nat (String.length fp)))
            (NilEmpty.uint_of_string ds)
  end.

(** [float(s)]: white space around the number is dropped and the digits may
    be separated by single [_]; then an optional sign, and [inf], [infinity],
    [nan] or a decimal number with an optional exponent. *)
Definition float_of_string (s : string) : result float :=
  match drop_separators false (strip s) with
  | None => Raise ValueError
  | Some t =>
      let '(neg, body) := match t with
                          | String "-" s' => (true, s')
                          | String "+" s' => (false, s')
                          | _ => (false, t)
                          end in
      let body := lowercase body in
      if String.eqb body "inf" || String.eqb body "infinity" then
        Ok (if neg then neg_infinity else infinity)
      else if String.eqb body "nan" then Ok nan
      else
        let '(mant, ex) := cut_at "e" body in
        match mantissa_of_string mant, match ex with
                                       | None => Some 0
                                       | Some t => int_literal t
                                       end with
        | Some (m, k), Some e => Ok (float_of_decimal neg m (e - k))
        | _, _ => Raise ValueError
        end
  end.

(** [int(round(x))] for a float [x]: the nearest integer, ties to even. *)
Definition py_round (x : float) : result Z :=
  match Prim2SF x with
  | S754_nan => Raise ValueError
  | S754_infinity _ => Raise OverflowError
  | S754_zero _ => Ok 0
  | S754_finite s m e =>
      let n := if 0 <=? e then Z.pos m * 2 ^ e
               else div_round_half_even (Z.pos m) (2 ^ (- e)) in
      Ok (if s then - n else n)
  end.

(** [x / y] on floats: Python raises where IEEE gives an infinity or nan. *)
Definition py_div_float (x y : float) : result float :=
  if PrimFloat.eqb y 0%float then Raise ZeroDivisionError else Ok (x / y)%float.

(** ** What the module takes from elsewhere *)

(** The collaborators outside [cube.py] and [dos.py], and the values the
    system provides.  The path classes of [pytrip.util] are given by what
    their properties return for a path; the DICOM comment block goes through
    pydicom, json and pprint and is given as a function of the comment lines
    an [AccompanyingDicomData] object stands for. *)
Record Env : Type := mk_Env {
  getuser : string;                 (* getpass.getuser() *)
  pytrip_version : string;          (* pytrip.__version__ *)
  today : string;                   (* datetime.datetime.today().strftime('%Y%m%d-%H%M%S') *)
  to_comment : list string -> string;
  from_comment : list string -> list string -> result (list string);
  gunzip : string -> result string; (* what gzip.open(path).read() returns for a file's bytes *)
  path_basename : string -> string;         (* TRiP98FilePath(path, cube).basename *)
  path_header : string -> string;           (* TRiP98FilePath(path, cube).header *)
  path_datafile : string -> string;         (* TRiP98FilePath(path, cube).datafile *)
  is_valid_header_path : string -> bool;    (* TRiP98FilePath(path, cube).is_valid_header_path() *)
  is_valid_datafile_path : string -> bool;  (* TRiP98FilePath(path, cube).is_valid_datafile_path() *)
  locator_header : files -> string -> option string;   (* TRiP98FileLocator(path, cube).header *)
  locator_datafile : files -> string -> option string; (* TRiP98FileLocator(path, cube).datafile *)
  c_cast : dtype -> float -> Z;     (* the machine's float-to-integer conversion where C defines none *)
  np_zeros_error : nat * nat * nat -> dtype -> option exn
                                    (* the exception of np.zeros(shape, dtype) when the array is
                                       too big or the memory is not there *)
}.

(** ** [os.path] *)

(** The text after the last occurrence of [c], and whether there is one. *)
Fixpoint after_last (c : ascii) (s : string) : option string :=
  match s with
  | EmptyString => None
  | String a s' =>
      match after_last c s' with
      | Some t => Some t
      | None => if Ascii.eqb a c then Some s' else None
      end
  end.

(** [os.path.basename(path)] *)
Definition os_path_basename (path : string) : string :=
  default path (after_last "/" path).

Fixpoint all_dots (s : string) : bool :=
  match s with
  | EmptyString => true
  | String a s' => Ascii.eqb a "." && all_dots s'
  end.

Fixpoint string_take (n : nat) (s : string) : string :=
  match n, s with
  | S n', String a s' => String a (string_take n' s')
  | _, _ => ""
  end.

(** [os.path.splitext(name)[0]] for a name without directory: the name up
    to its last dot, unless only dots come before it. *)
Definition splitext_root (name : string) : string :=
  match after_last "." name with
  | None => name
  | Some ext =>
      let root := string_take (String.length name - String.length ext - 1) name in
      if all_dots root then name else root
  end.

(** ** [distutils.version.LooseVersion] *)

Inductive vclass : Type := CDigit | CLower | CDot | COther.

Definition vclass_of (a : ascii) : vclass :=
  let n := nat_of_ascii a in
  if ((48 <=? n) && (n <=? 57))%nat then CDigit
  else if ((97 <=? n) && (n <=? 122))%nat then CLower
  else if (n =? 46)%nat then CDot
  else COther.

Definition same_run (k k' : vclass) : bool :=
  match k, k' with
  | CDigit, CDigit | CLower, CLower | COther, COther => true
  | _, _ => false
  end.

(** The pieces [component_re.split] cuts a version string into: runs of
    digits, runs of small letters, single dots, and what lies between. *)
Fixpoint version_runs (s : string) : list (vclass * string) :=
  match s with
  | EmptyString => []
  | String c s' =>
      let k := vclass_of c in
      match version_runs s' with
      | (k', w) :: rest =>
          if same_run k k' then (k, String c w) :: rest
          else (k, String c "") :: (k', w) :: rest
      | [] => [(k, String c "")]
      end
  end.

Inductive vcomponent : Type := VNum (n : Z) | VStr (s : string).

Definition loose_version (s : string) : list vcomponent :=
  omap (fun '(k, w) =>
          match k with
          | CDot => None
          | CDigit => Some (match digits_value w with Some n => VNum n | None => VStr w end)
          | _ => Some (VStr w)
          end) (version_runs s).

(** Python's order on the component lists: the first pair of unequal
    components decides, and an [int] against a [str] raises [TypeError]. *)
Fixpoint loose_compare (a b : list vcomponent) : result comparison :=
  match a, b with
  | [], [] => Ok Eq
  | [], _ :: _ => Ok Lt
  | _ :: _, [] => Ok Gt
  | VNum x :: a', VNum y :: b' =>
      if x =? y then loose_compare a' b' else Ok (x ?= y)
  | VStr x :: a', VStr y :: b' =>
      if String.eqb x y then loose_compare a' b' else Ok (String.compare x y)
  | _, _ => Raise TypeError
  end.

(** [LooseVersion(a) >= LooseVersion(b)].  [LooseVersion("")] parses
    nothing and has no [version] attribute for the comparison to read. *)
Definition loose_version_ge (a b : string) : result bool :=
  if String.eqb a "" || String.eqb b "" then Raise (AttributeError "version")
  else
    c ← loose_compare (loose_version a) (loose_version b);
    Ok (match c with Lt => false | _ => true end).

(** ** Constructors *)

(** [Cube.__init__(self, cube)].  The copying branch fills the new object
    from [cube], sets the format string and the element type, and gives it a
    fresh array of zeros; [format_str], [pydata_type] and [dicom_data] are not
    copied. *)
Definition Cube_init (E : Env) (cube' : option Cube) : M heap Cube :=
  match cube' with
  | Some c =>
      let self0 :=
        mk_Cube c.(header_set) c.(version) c.(modality) c.(created_by)
          c.(creation_info) c.(primary_view) c.(data_type) c.(num_bytes)
          c.(byte_order) c.(patient_name) c.(patient_id) c.(slice_dimension)
          c.(pixel_size) c.(slice_distance) c.(slice_thickness) c.(slice_number)
          c.(xoffset) c.(dimx) c.(yoffset) c.(dimy) c.(zoffset) c.(dimz)
          c.(z_table) c.(slice_pos) c.(basename)
          c.(common_meta_dicom_data) c.(common_dicom_data) c.(file_specific_dicom_data)
          None None None None in
      self1 ← lift (exec (_set_format_str;; _set_number_of_bytes) self0);
      dt ← attr "pydata_type" c.(pydata_type);
      nz ← lift (py_dim self1.(dimz));
      ny ← lift (py_dim self1.(dimy));
      nx ← lift (py_dim self1.(dimx));
      match E.(np_zeros_error) (nz, ny, nx) dt with
      | Some e => raise e
      | None =>
          l ← alloc (zeros (nz, ny, nx) dt);
          ret (set_cube (Some l) self1)
      end
  | None =>
      ret (mk_Cube false "2.0" "CT" E.(getuser)
             ("Created with PyTRiP98 " ++ E.(pytrip_version)) "transversal"
             "" None "vms" "" E.(today) None None None None None
             (PyFloat 0) None (PyFloat 0) None (PyFloat 0) None false [] ""
             None None None None None None None)
  end.

(** [DosCube.__init__(self, cube)]: the base constructor, then
    [self.dicom_data = getattr(cube, "dicom_data", {})].  The attributes
    [type], [target_dose] and the DICOM identifiers it also sets are read by
    no function embedded here and are left out. *)
Definition DosCube_init (E : Env) (cube' : option Cube) : M heap Cube :=
  self ← Cube_init E cube';
  let d := match cube' with
           | Some c => default DicomEmptyDict c.(dicom_data)
           | None => DicomEmptyDict
           end in
  ret (set_dicom_data (Some d) self).

(** ** Reading a header *)

(** [content[i].split()[1]] *)
Definition token1 (line : string) : result string :=
  py_list_index (tokens line) 1.

(** [if re.match(key, line): self.x = line.split()[1]] *)
Definition directive_str (key : string) (set : string -> Cube -> Cube)
    (line : string) : M Cube unit :=
  when (re_match key line) (t ← lift (token1 line); modify (set t)).

(** [if re.match(key, line): self.x = int(line.split()[1])] *)
Definition directive_int (key : string) (set : Z -> Cube -> Cube)
    (line : string) : M Cube unit :=
  when (re_match key line)
    (t ← lift (token1 line); z ← lift (int_of_string t); modify (set z)).

(** [if re.match(key, line): self.x = float(line.split()[1])] *)
Definition directive_float (key : string) (set : float -> Cube -> Cube)
    (line : string) : M Cube unit :=
  when (re_match key line)
    (t ← lift (token1 line); x ← lift (float_of_string t); modify (set x)).

(** [if re.match(key, line): self.x = line.replace(key + " ", "", 1).rstrip()] *)
Definition directive_text (key : string) (set : string -> Cube -> Cube)
    (line : string) : M Cube unit :=
  when (re_match key line) (modify (set (rstrip (remove_first (key ++ " ") line)))).

(** The tests of one turn of the loop of [_parse_trip_header] that come
    before [slice_no], on the line [content[i]]. *)
Definition parse_directives (line : string) : M Cube unit :=
  directive_str "version" set_version line;;
  directive_str "modality" set_modality line;;
  directive_text "created_by" set_created_by line;;
  directive_text "creation_info" set_creation_info line;;
  directive_str "primary_view" set_primary_view line;;
  directive_str "data_type" set_data_type line;;
  directive_int "num_bytes" (fun z => set_num_bytes (Some z)) line;;
  directive_str "byte_order" set_byte_order line;;
  directive_str "patient_name" set_patient_name line;;
  directive_int "slice_dimension" (fun z => set_slice_dimension (Some z)) line;;
  directive_float "pixel_size" (fun x => set_pixel_size (Some x)) line;;
  directive_float "slice_distance"
    (fun x c => set_slice_thickness (Some x) (set_slice_distance (Some x) c)) line;;
  directive_int "slice_number" (fun z => set_slice_number (Some z)) line;;
  directive_int "xoffset" (fun z => set_xoffset (PyInt z)) line;;
  directive_int "yoffset" (fun z => set_yoffset (PyInt z)) line;;
  directive_int "zoffset" (fun z => set_zoffset (PyInt z)) line;;
  directive_int "dimx" (fun z => set_dimx (Some z)) line;;
  directive_int "dimy" (fun z => set_dimy (Some z)) line;;
  directive_int "dimz" (fun z => set_dimz (Some z)) line.

(** One row of the table of slice positions:
    [self.slice_pos[j] = float(content[i].split()[1]); i += 1]. *)
Definition parse_table_row (content : list string) (j : Z) (i : nat)
  : M Cube (ctl * nat) :=
  line ← lift (py_list_index content (Z.of_nat i));
  t ← lift (token1 line);
  x ← lift (float_of_string t);
  modify (fun c => set_slice_pos (<[Z.to_nat j := x]> c.(slice_pos)) c);;
  ret (Continue, S i).

(** The [slice_no] branch: the table follows the line [content[i]]. *)
Definition parse_table (content : list string) (i : nat) : M Cube nat :=
  self ← get;
  js ← lift (py_range self.(slice_number));
  modify (set_slice_pos (map float_of_Z js));;
  modify (set_z_table true);;
  for_in js (S i) (parse_table_row content).

(** The [while i < len(content)] loop.  Each turn moves [i] forward, so
    [S (length content)] turns are enough: [fuel] only makes the recursion
    structural, and [parse_loop_fuel] shows that it is never used up. *)
Fixpoint parse_loop (fuel : nat) (content : list string) (i : nat)
    (dicom_str : list string) : M Cube (list string) :=
  match fuel with
  | O => raise (PyException "parse_loop: out of fuel")
  | S fuel' =>
      if (i <? List.length content)%nat then
        line ← lift (py_list_index content (Z.of_nat i));
        parse_directives line;;
        i ← (if re_match "slice_no" line then parse_table content i else ret i);
        line ← lift (py_list_index content (Z.of_nat i));
        let dicom_str := if re_match "#@" line then (dicom_str ++ [line])%list else dicom_str in
        parse_loop fuel' content (S i) dicom_str
      else ret dicom_str
  end.

(** [self.x *= self.y] for an offset and a size.  The sentinel of the size
    is the [str] [""]: a float times it raises, an [int] times it is [""]. *)
Definition scale_offset (off : num) (size : option float) : result num :=
  match off, size with
  | PyEmptyStr, _ => Raise TypeError
  | PyFloat _, None => Raise TypeError
  | PyInt _, None => Ok PyEmptyStr
  | _, Some s => x ← to_float off; Ok (PyFloat (x * s)%float)
  end.

(** ["{:f}".format(x)] on an offset, for the message of [logger.debug]: a
    [str] has no format [f]. *)
Definition check_format_f (x : num) : result unit :=
  match x with
  | PyEmptyStr => Raise ValueError
  | _ => Ok tt
  end.

(** [self.zoffset + _i * self.slice_distance] *)
Definition synth_slice_pos (zoff : num) (dist : option float) (i : Z) : result float :=
  match dist with
  | Some d => z ← to_float zoff; Ok (z + float_of_Z i * d)%float
  | None => Raise TypeError
  end.

Fixpoint mapM {A B} (f : A -> result B) (l : list A) : result (list B) :=
  match l with
  | [] => Ok []
  | x :: l' => y ← f x; ys ← mapM f l'; Ok (y :: ys)
  end.

(** What [_parse_trip_header] does after the loop, up to the format string. *)
Definition finish_header : M Cube unit :=
  self ← get;
  x ← lift (scale_offset self.(xoffset) self.(pixel_size));
  modify (set_xoffset x);;
  y ← lift (scale_offset self.(yoffset) self.(pixel_size));
  modify (set_yoffset y);;
  z ← lift (scale_offset self.(zoffset) self.(slice_distance));
  modify (set_zoffset z);;
  lift (check_format_f x);;
  lift (check_format_f y);;
  lift (check_format_f z);;
  self ← get;
  when (negb self.(z_table))
    (ns ← lift (py_range self.(slice_number));
     ps ← lift (mapM (synth_slice_pos self.(zoffset) self.(slice_distance)) ns);
     modify (set_slice_pos ps));;
  _set_format_str.

(** The lines that start with ["#@"] go to the DICOM object, made first when
    the cube has none. *)
Definition attach_dicom (E : Env) (dicom_str : list string) : M Cube unit :=
  match dicom_str with
  | [] => ret tt
  | _ =>
      self ← get;
      match default (DicomObject []) self.(dicom_data) with
      | DicomEmptyDict => raise (AttributeError "from_comment")
      | DicomObject old =>
          new ← lift (E.(from_comment) old dicom_str);
          modify (set_dicom_data (Some (DicomObject new)))
      end
  end.

(** [Cube._parse_trip_header(self, content)] *)
Definition _parse_trip_header (E : Env) (content : string) : M Cube unit :=
  modify (set_header_set true);;
  let content := split_on newline content in
  modify (set_z_table false);;
  dicom_str ← parse_loop (S (List.length content)) content 0 [];
  finish_header;;
  attach_dicom E dicom_str.

(** ** Writing a header *)

(** ["{:d}".format(x)], [str(x)] and ["{:.pf}".format(x)] on an attribute:
    the sentinel is a [str], which [d] and [f] refuse and [str] returns. *)
Definition fmt_d (x : option Z) : result string :=
  match x with
  | Some z => Ok (str_int z)
  | None => Raise ValueError
  end.

Definition str_attr (x : option Z) : string :=
  match x with
  | Some z => str_int z
  | None => ""
  end.

Definition fmt_f (p : nat) (x : option float) : result string :=
  match x with
  | Some v => Ok (format_f p v)
  | None => Raise ValueError
  end.

(** [int(round(off / size))] *)
Definition offset_in_voxels (off : num) (size : option float) : result Z :=
  match size with
  | Some s => x ← to_float off; q ← py_div_float x s; py_round q
  | None => Raise TypeError
  end.

(** One line of the table of slice positions:
    ["  {:<3d}{:14.4f}{:13.4f}{:14.4f}\n".format(i + 1, item, self.slice_thickness, 0)] *)
Definition table_line (thickness : option float) (i : nat) (item : float) : result string :=
  t ← fmt_f 4 thickness;
  Ok ("  " ++ ljust 3 (str_int (Z.of_nat i + 1)) ++ rjust 14 (format_f 4 item)
      ++ rjust 13 t ++ rjust 14 "0.0000" ++ nl).

Definition table_lines (thickness : option float) (slice_pos' : list float) : result string :=
  ls ← mapM (fun '(i, item) => table_line thickness i item)
            (zip (seq 0 (List.length slice_pos')) slice_pos');
  Ok (String.concat "" ls).

(** The text [_write_trip_header] builds for a cube and a path, up to the
    DICOM comment block. *)
Definition header_text (self : Cube) (path : string) : result string :=
  let out := "version " ++ self.(version) ++ nl in
  let out := out ++ "modality " ++ self.(modality) ++ nl in
  ge ← loose_version_ge self.(version) "1.4";
  let out := if (ge : bool)
             then out ++ "created_by " ++ self.(created_by) ++ nl
                      ++ "creation_info " ++ self.(creation_info) ++ nl
             else out in
  let out := out ++ "primary_view " ++ self.(primary_view) ++ nl in
  let out := out ++ "data_type " ++ self.(data_type) ++ nl in
  let out := out ++ "num_bytes " ++ str_attr self.(num_bytes) ++ nl in
  let out := out ++ "byte_order " ++ self.(byte_order) ++ nl in
  let _fname := os_path_basename path in
  let _pname := splitext_root _fname in
  let out := out ++ "patient_name " ++ _pname ++ nl in
  sd ← fmt_d self.(slice_dimension);
  let out := out ++ "slice_dimension " ++ sd ++ nl in
  ps ← fmt_f 7 self.(pixel_size);
  let out := out ++ "pixel_size " ++ ps ++ nl in
  dist ← fmt_f 7 self.(slice_distance);
  let out := out ++ "slice_distance " ++ dist ++ nl in
  let out := out ++ "slice_number " ++ str_attr self.(slice_number) ++ nl in
  xo ← offset_in_voxels self.(xoffset) self.(pixel_size);
  let out := out ++ "xoffset " ++ str_int xo ++ nl in
  dx ← fmt_d self.(dimx);
  let out := out ++ "dimx " ++ dx ++ nl in
  yo ← offset_in_voxels self.(yoffset) self.(pixel_size);
  let out := out ++ "yoffset " ++ str_int yo ++ nl in
  dy ← fmt_d self.(dimy);
  let out := out ++ "dimy " ++ dy ++ nl in
  let out := out ++ "zoffset 0" ++ nl in
  let out := out ++ "dimz " ++ str_attr self.(dimz) ++ nl in
  if self.(z_table) then
    tl ← table_lines self.(slice_thickness) self.(slice_pos);
    Ok (out ++ "z_table yes" ++ nl
            ++ "slice_no  position  thickness  gantry_tilt" ++ nl ++ tl)
  else Ok (out ++ "z_table no" ++ nl).

(** [Cube._write_trip_header(self, path)].  The patient name is replaced
    when empty, though the header takes the name from the path. *)
Definition _write_trip_header (E : Env) (path : string) : M state unit :=
  self ← get_self;
  ge ← lift (loose_version_ge self.(version) "1.4");
  when (String.eqb self.(patient_name) "") (assign (set_patient_name "Anonymous"));;
  out ← lift (header_text self path);
  d ← attr "dicom_data" self.(dicom_data);
  let out := match d with
             | DicomEmptyDict => out
             | DicomObject lines => out ++ E.(to_comment) lines
             end in
  on_fs (modify (insert path out)).

(** ** The data file *)

Definition itemsize (dt : dtype) : nat :=
  match dt with
  | np_int8 => 1 | np_int16 => 2 | np_int32 => 4 | np_float32 => 4 | np_double => 8
  end.

(** The bit pattern of a binary64 (every nan is the quiet nan with no payload). *)
Definition bits_of_float64 (x : float) : Z :=
  match Prim2SF x with
  | S754_nan => 2047 * 2 ^ 52 + 2 ^ 51
  | S754_infinity s => (if s then 2 ^ 63 else 0) + 2047 * 2 ^ 52
  | S754_zero s => if s then 2 ^ 63 else 0
  | S754_finite s m e =>
      (if s then 2 ^ 63 else 0)
      + (if Z.pos m <? 2 ^ 52 then Z.pos m else (e + 1075) * 2 ^ 52 + (Z.pos m - 2 ^ 52))
  end.

Definition float64_of_bits (b : Z) : float :=
  let s := (0 <? b / 2 ^ 63)%Z in
  let e := ((b / 2 ^ 52) mod 2048)%Z in
  let f := (b mod 2 ^ 52)%Z in
  if (e =? 2047)%Z then (if (f =? 0)%Z then SF2Prim (S754_infinity s) else nan)
  else if (e =? 0)%Z then
    match f with
    | Z.pos m => SF2Prim (S754_finite s m (-1074)%Z)
    | _ => SF2Prim (S754_zero s)
    end
  else match (2 ^ 52 + f)%Z with
       | Z.pos m => SF2Prim (S754_finite s m (e - 1075)%Z)
       | _ => SF2Prim (S754_zero s)
       end.

(** The bit pattern of the binary32 nearest to a binary64. *)
Definition bits_of_float32 (x : float) : Z :=
  match Prim2SF x with
  | S754_nan => 255 * 2 ^ 23 + 2 ^ 22
  | S754_infinity s => (if s then 2 ^ 31 else 0) + 255 * 2 ^ 23
  | S754_zero s => if s then 2 ^ 31 else 0
  | S754_finite s m e =>
      (if s then 2 ^ 31 else 0)
      + match binary_round 24 128 s m e with
        | S754_finite _ m' e' =>
            if Z.pos m' <? 2 ^ 23 then Z.pos m' else (e' + 150) * 2 ^ 23 + (Z.pos m' - 2 ^ 23)
        | S754_infinity _ => 255 * 2 ^ 23
        | _ => 0
        end
  end.

Definition float32_of_bits (b : Z) : float :=
  let s := (0 <? b / 2 ^ 31)%Z in
  let e := ((b / 2 ^ 23) mod 256)%Z in
  let f := (b mod 2 ^ 23)%Z in
  if (e =? 255)%Z then (if (f =? 0)%Z then SF2Prim (S754_infinity s) else nan)
  else if (e =? 0)%Z then
    match f with
    | Z.pos m => SF2Prim (S754_finite s m (-149)%Z)
    | _ => SF2Prim (S754_zero s)
    end
  else match (2 ^ 23 + f)%Z with
       | Z.pos m => SF2Prim (S754_finite s m (e - 150)%Z)
       | _ => SF2Prim (S754_zero s)
       end.

(** The [n] low bytes of [z], the least significant first. *)
Fixpoint le_bytes (n : nat) (z : Z) : list ascii :=
  match n with
  | O => []
  | S n' => ascii_of_N (Z.to_N (z mod 256)) :: le_bytes n' (z / 256)
  end.

Fixpoint of_le_bytes (bs : list ascii) : Z :=
  match bs with
  | [] => 0
  | b :: bs' => Z.of_N (N_of_ascii b) + 256 * of_le_bytes bs'
  end.

(** The bytes of one element of type [dt]; [big] is the byte order. *)
Definition encode_scalar (cc : dtype -> float -> Z) (dt : dtype) (big : bool)
    (v : scalar) : list ascii :=
  let bits := match np_cast cc dt v with
              | SInt z => z mod 2 ^ (8 * Z.of_nat (itemsize dt))
              | SFloat x => match dt with
                            | np_float32 => bits_of_float32 x
                            | _ => bits_of_float64 x
                            end
              end in
  let bs := le_bytes (itemsize dt) bits in
  if big then List.rev bs else bs.

Definition decode_scalar (dt : dtype) (big : bool) (bs : list ascii) : scalar :=
  let bits := of_le_bytes (if big then List.rev bs else bs) in
  match dt with
  | np_float32 => SFloat (float32_of_bits bits)
  | np_double => SFloat (float64_of_bits bits)
  | _ => SInt (wrap_int (int_bits dt) bits)
  end.

Definition encode_array (cc : dtype -> float -> Z) (dt : dtype) (big : bool)
    (vs : list scalar) : string :=
  string_of_list_ascii (List.concat (map (encode_scalar cc dt big) vs)).

(** The first [n] items of [size] bytes each. *)
Fixpoint items (size n : nat) (bs : list ascii) : list (list ascii) :=
  match n with
  | O => []
  | S n' => take size bs :: items size n' (drop size bs)
  end.

(** [np.fromfile(path, dtype)]: every whole item the bytes hold. *)
Definition decode_array (dt : dtype) (big : bool) (bytes : string) : list scalar :=
  let bs := list_ascii_of_string bytes in
  map (decode_scalar dt big) (items (itemsize dt) (List.length bs / itemsize dt) bs).

(** [np.dtype(format_str)] for the strings [_set_format_str] builds: a byte
    order and one type character (anything else is not understood). *)
Definition np_dtype (format_str' : string) : result (bool * dtype) :=
  match format_str' with
  | String o (String t EmptyString) =>
      match (if Ascii.eqb o "<" then Some false
             else if Ascii.eqb o ">" then Some true else None),
            (if Ascii.eqb t "b" then Some np_int8
             else if Ascii.eqb t "h" then Some np_int16
             else if Ascii.eqb t "i" then Some np_int32
             else if Ascii.eqb t "f" then Some np_float32
             else if Ascii.eqb t "d" then Some np_double else None) with
      | Some big, Some dt => Ok (big, dt)
      | _, _ => Raise TypeError
      end
  | _ => Raise TypeError
  end.

(** [Cube._write_trip_data(self, path)].  [tofile] writes in the byte order
    of the machine, taken to be little-endian; [byteswap] turns it over. *)
Definition _write_trip_data (E : Env) (path : string) : M state unit :=
  self ← get_self;
  l ← attr "cube" self.(cube);
  dt ← attr "pydata_type" self.(pydata_type);
  a ← on_mem (deref l);
  let big := String.eqb self.(byte_order) "aix" in
  on_fs (modify (insert path (encode_array E.(c_cast) dt big a.(arr_data)))).

(** [open(path).read()], through gzip for a name that ends with [".gz"]. *)
Definition read_file (E : Env) (path : string) : M state string :=
  f ← on_fs get;
  match f !! path with
  | None => raise (IOError "No such file or directory")
  | Some bytes => if endswith path ".gz" then lift (E.(gunzip) bytes) else ret bytes
  end.

(** [Cube._read_trip_header_file(self, header_path)] *)
Definition _read_trip_header_file (E : Env) (header_path : string) : M state unit :=
  content ← read_file E header_path;
  on_self (_parse_trip_header E content);;
  on_self _set_format_str.

(** [x * y * z] on three attributes (a sentinel among them: [TypeError]). *)
Definition py_mul3 (x y z : option Z) : result Z :=
  match x, y, z with
  | Some a, Some b, Some c => Ok (a * b * c)
  | _, _, _ => Raise TypeError
  end.

(** [Cube._read_trip_data_file(self, datafile_path, header_path, multiply_by_2)] *)
Definition _read_trip_data_file (E : Env) (datafile_path header_path : string)
    (multiply_by_2 : bool) : M state unit :=
  self ← get_self;
  when (negb self.(header_set)) (_read_trip_header_file E header_path);;
  self ← get_self;
  if negb self.(header_set) then raise (InputError "Header file not loaded")
  else
    fmt ← attr "format_str" self.(format_str);
    '(big, dt) ← lift (np_dtype fmt);
    data_count ← lift (py_mul3 self.(dimx) self.(dimy) self.(dimz));
    bytes ← read_file E datafile_path;
    elems ← (if endswith datafile_path ".gz" then
               if (data_count <? 0)
                  || (Z.of_nat (String.length bytes) <? Z.of_nat (itemsize dt) * data_count)
               then raise ValueError
               else ret (decode_array dt big
                           (string_take (itemsize dt * Z.to_nat data_count) bytes))
             else ret (decode_array dt big bytes));
    if negb (Z.of_nat (List.length elems) =? data_count) then
      raise (IOError "Header data and dose cube size are not consistent.")
    else
      nz ← lift (py_dim self.(dimz));
      ny ← lift (py_dim self.(dimy));
      nx ← lift (py_dim self.(dimx));
      let elems := if multiply_by_2
                   then map (fun v => np_cast E.(c_cast) dt (match v with
                                                  | SInt z => SInt (2 * z)
                                                  | SFloat x => SFloat (x * 2)%float
                                                  end)) elems
                   else elems in
      l ← on_mem (alloc (mk_ndarray dt (nz, ny, nx) elems));
      assign (set_cube (Some l)).

(** ** [read] and [write] *)

(** The [path] argument: a string, or a sequence of strings. *)
Inductive path_arg : Type :=
| PathStr (p : string)
| PathSeq (ps : list string).

(** [os.path.exists(path)] *)
Definition os_path_exists (f : files) (path : string) : bool :=
  bool_decide (is_Some (f !! path)).

(** Python's truth of an optional string: [None] and [""] are false. *)
Definition truthy (p : option string) : bool :=
  match p with
  | Some (String _ _) => true
  | _ => false
  end.

(** [Cube.read(self, path)] *)
Definition read (E : Env) (path : path_arg) : M state unit :=
  '(header_path, datafile_path) ←
    match path with
    | PathStr p =>
        assign (set_basename (os_path_basename (E.(path_basename) p)));;
        f ← on_fs get;
        let header_path := E.(locator_header) f p in
        let datafile_path := E.(locator_datafile) f p in
        if negb (truthy datafile_path) || negb (truthy header_path) then
          raise (FileNotFound ("Loading " ++ p ++ " failed, file not found"))
        else ret (default "" header_path, default "" datafile_path)
    | PathSeq [header_path; datafile_path] =>
        f ← on_fs get;
        if negb (os_path_exists f header_path) then
          raise (FileNotFound ("Loading " ++ header_path ++ " failed, file not found"))
        else if negb (os_path_exists f datafile_path) then
          raise (FileNotFound ("Loading " ++ datafile_path ++ " failed, file not found"))
        else
          assign (set_basename "");;
          ret (header_path, datafile_path)
    | PathSeq _ =>
        raise (PyException "More than two arguments provided as path variable to Cube.read method")
    end;
  _read_trip_header_file E header_path;;
  _read_trip_data_file E datafile_path header_path false.

(** [Cube.write(self, path)]: the paths written to are returned. *)
Definition write (E : Env) (path : path_arg) : M state (string * string) :=
  '(header_path, datafile_path) ←
    match path with
    | PathStr p => ret (E.(path_header) p, E.(path_datafile) p)
    | PathSeq [header_path; datafile_path] => ret (header_path, datafile_path)
    | PathSeq _ =>
        raise (PyException "More than two arguments provided as path variable to Cube.read method")
    end;
  _write_trip_header E header_path;;
  _write_trip_data E datafile_path;;
  ret (header_path, datafile_path).

(** ** The dose-volume histogram ([pytrip/dos.py]) *)

(** [DosCube.calculate_dvh(self, voi)] reads the sizes and [dimz] of the
    cube and the planes [self.cube[i]] of its array, which it hands on to
    [pytriplib.calculate_dvh_slice], a C function outside the sources.  That
    function, the region of interest and the dot product behind [np.dot]
    (BLAS, whose order of summation is its own) are parameters; every other
    operation is the float64 operation of numpy. *)
Module Dvh.

(** A plane [a[i]] of an array: the element type, the shape (rows and
    columns) and the elements. *)
Record plane : Type := mk_plane {
  plane_dtype : dtype;
  plane_shape : nat * nat;
  plane_data : list scalar
}.

(** [a[i]] on an array of three axes; a negative [i] counts from the end. *)
Definition np_plane (a : ndarray) (i : Z) : result plane :=
  let '(nz, ny, nx) := a.(arr_shape) in
  let i' := if i <? 0 then i + Z.of_nat nz else i in
  if (i' <? 0) || (Z.of_nat nz <=? i') then Raise IndexError
  else Ok (mk_plane a.(arr_dtype) (ny, nx)
             (take (ny * nx) (drop (Z.to_nat i' * (ny * nx)) a.(arr_data)))).

Definition maximum_dose : nat := 1500.

(** [a += b] for a vector [a] and a vector [b]: [b] has the length of [a],
    or it has one element, which is added to every element of [a]. *)
Definition add_bins (a b : list float) : result (list float) :=
  if (List.length a =? List.length b)%nat then Ok (zip_with PrimFloat.add a b)
  else match b with
       | [x] => Ok (map (fun y => y + x)%float a)
       | _ => Raise ValueError
       end.

(** [sum(v)]: the elements are added to 0 one after the other. *)
Definition fsum (v : list float) : float := fold_left PrimFloat.add v 0%float.

(** [np.cumsum(v)] *)
Fixpoint cumsum_from (acc : float) (v : list float) : list float :=
  match v with
  | [] => []
  | x :: v' => (acc + x)%float :: cumsum_from (acc + x)%float v'
  end.
Definition cumsum (v : list float) : list float :=
  match v with
  | [] => []
  | x :: v' => x :: cumsum_from x v'
  end.

(** [np.where(cond)[0]]: the indices at which [cond] holds, in order. *)
Fixpoint where_from (i : nat) (cond : float -> bool) (v : list float) : list nat :=
  match v with
  | [] => []
  | x :: v' => if cond x then i :: where_from (S i) cond v' else where_from (S i) cond v'
  end.
Definition np_where (cond : float -> bool) (v : list float) : list nat :=
  where_from 0 cond v.

(** [np.arange(start=0.0, stop=1500.0)] *)
Definition dvh_axis : list float :=
  map (fun i => float_of_Z (Z.of_nat i)) (seq 0 maximum_dose).

Record dvh_result : Type := mk_dvh_result {
  dvh : list (float * float);       (* np.column_stack((dvh_x, dvh_y)) *)
  min_dose : float;
  max_dose : float;
  mean_dose : float;
  mean_volume : float
}.

(** A size in a product or a sum of floats: the sentinel is a [str]. *)
Definition size_value (x : option float) : result float :=
  match x with
  | Some v => Ok v
  | None => Raise TypeError
  end.

(** *** A cube of uniform dose *)

(** The vector [f a, f (a + 1), ..., f (a + n - 1)]. *)
Definition tab (f : nat -> float) (a n : nat) : list float := map f (seq a n).

(** A histogram with [c] in the bin [d] and nothing elsewhere. *)
Definition one_bin (d : nat) (c : float) : list float :=
  tab (fun j => if (j =? d)%nat then c else 0%float) 0 maximum_dose.

(** [((0 + cnt 0) + cnt 1) + ... + cnt (k - 1)]: the voxels of [k] slices,
    as the loop adds them up in float64. *)
Fixpoint total (cnt : nat -> float) (k : nat) : float :=
  match k with
  | O => 0%float
  | S k' => (total cnt k' + cnt k')%float
  end.

(** The position at which the loop looks for the slice [i] of the region:
    [slice_distance] added [i + 1] times to zero, in float64. *)
Fixpoint z_pos_at (sd : float) (k : nat) : float :=
  match k with
  | O => 0%float
  | S k' => (z_pos_at sd k' + sd)%float
  end.

Section WithCollaborators.

Context {contour : Type}.

(** [pytriplib.calculate_dvh_slice(plane, contour, voxel_size)], the
    histogram as [dose_bins +=] takes it, in float64; [voxel_size] is made
    of [pixel_size] twice and [slice_distance]. *)
Variable calculate_dvh_slice :
  plane -> contour -> option float * option float * option float -> list float.

(** [voi.get_slice_at_pos(z)]: [None], or a slice given by its [contours]. *)
Variable get_slice_at_pos : float -> option (list contour).

(** [np.dot(a, b)] on two vectors. *)
Variable np_dot : list float -> list float -> float.

(** The body of [for i in range(self.dimz)]; the loop's variables are
    [z_pos], [dose_bins] and [voi_and_cube_intersect]. *)
Definition dvh_slice (self : Cube) (i : Z) (acc : float * list float * bool)
  : M heap (ctl * (float * list float * bool)) :=
  let '(z_pos, dose_bins, hit) := acc in
  sd ← lift (size_value self.(slice_distance));
  let z_pos := (z_pos + sd)%float in
  match get_slice_at_pos z_pos with
  | None => ret (Continue, (z_pos, dose_bins, hit))
  | Some contours =>
      l ← attr "cube" self.(cube);
      a ← deref l;
      p ← lift (np_plane a i);
      c ← lift (py_list_index contours 0);
      let voxel_size := (self.(pixel_size), self.(pixel_size), self.(slice_distance)) in
      bins ← lift (add_bins dose_bins (calculate_dvh_slice p c voxel_size));
      ret (Continue, (z_pos, bins, true))
  end.

(** [DosCube.calculate_dvh(self, voi)]: [None] when no slice meets the
    region. *)
Definition calculate_dvh (self : Cube) : M heap (option dvh_result) :=
  zs ← lift (py_range self.(dimz));
  '(_, dose_bins, voi_and_cube_intersect) ←
    for_in zs (0%float, replicate maximum_dose 0%float, false) (dvh_slice self);
  if (voi_and_cube_intersect : bool) then
    let sum_of_doses := fsum dose_bins in
    let dvh_x := dvh_axis in
    let dvh_y := map (fun y => y / sum_of_doses)%float
                     (List.rev (cumsum (List.rev dose_bins))) in
    lo ← lift (py_list_index (np_where (fun y => PrimFloat.leb 0.98 y) dvh_y) (-1));
    hi ← lift (py_list_index (np_where (fun y => PrimFloat.leb y 0.02) dvh_y) 0);
    let mean := (np_dot dose_bins dvh_x / sum_of_doses)%float in
    ps ← lift (size_value self.(pixel_size));
    sd ← lift (size_value self.(slice_distance));
    let volume := (sum_of_doses * ps * ps * sd)%float in
    ret (Some (mk_dvh_result
                 (zip (map (fun x => x / 1000)%float dvh_x) dvh_y)
                 (float_of_Z (Z.of_nat lo) / 1000)%float
                 (float_of_Z (Z.of_nat hi) / 1000)%float
                 (mean / 1000)%float
                 (volume / 1000)%float))
  else ret None.

(** The slice [i] of the array [a] meets the region, and its voxels inside
    the region, [cnt i] of them, all hold the dose [d]. *)
Definition uniform_slice (a : ndarray) (ps sd : float) (d : nat) (cnt : nat -> float)
    (i : nat) : Prop :=
  exists p c cs,
    np_plane a (Z.of_nat i) = Ok p /\
    get_slice_at_pos (z_pos_at sd (S i)) = Some (c :: cs) /\
    calculate_dvh_slice p c (Some ps, Some ps, Some sd) = one_bin d (cnt i).

End WithCollaborators.
End Dvh.

(** ** Values for the examples *)

(** An environment for the examples.  The path classes of [pytrip.util] are
    taken at their simplest: a name without extension is its own base name,
    the header and the data file of a base name are the name with [".hed"]
    and [".dos"], and the locator finds a file that is there.  The machine
    converts as x86-64 does (the integer part when it fits 32 bits, else
    -2^31), and memory is never short. *)
Definition example_env : Env :=
  mk_Env "pytrip" "3.0" "20170101-120000"
    (fun _ => "") (fun _ new => Ok new) (fun bytes => Ok bytes)
    (fun p => p) (fun p => p ++ ".hed") (fun p => p ++ ".dos")
    (fun p => endswith p ".hed") (fun p => endswith p ".dos")
    (fun f p => if os_path_exists f (p ++ ".hed") then Some (p ++ ".hed") else None)
    (fun f p => if os_path_exists f (p ++ ".dos") then Some (p ++ ".dos") else None)
    (fun _ x => match Z_of_float_trunc x with
                | Some t => if int_in_range np_int32 t then t else - 2 ^ 31
                | None => - 2 ^ 31
                end)
    (fun _ _ => None).

(** The cube [Cube()] makes, and the cube [DosCube()] makes. *)
Definition new_Cube (E : Env) : Cube :=
  mk_Cube false "2.0" "CT" E.(getuser)
    ("Created with PyTRiP98 " ++ E.(pytrip_version)) "transversal"
    "" None "vms" "" E.(today) None None None None None
    (PyFloat 0) None (PyFloat 0) None (PyFloat 0) None false [] ""
    None None None None None None None.

Definition new_DosCube (E : Env) : Cube :=
  set_dicom_data (Some DicomEmptyDict) (new_Cube E).

(** A new [DosCube] with nothing in the store and no file. *)
Definition new_state (E : Env) : state := mk_state (new_DosCube E) ∅ ∅.

(** The state after [c = DosCube(); c.create_empty_cube(...)]. *)
Definition empty_cube_state (E : Env) (value dimx' dimy' dimz' : Z)
    (pixel_size' slice_distance' slice_offset : float) : state :=
  snd (create_empty_cube value dimx' dimy' dimz' pixel_size' slice_distance'
         slice_offset (new_state E)).

(** A cube of 3 x 2 x 1 voxels that all hold 7. *)
Definition cube_of_sevens : state := empty_cube_state example_env 7 3 2 1 1 1 0.

(** Two cubes of one voxel that differ in the pixel size only. *)
Definition cube_1mm : Cube := self (empty_cube_state example_env 0 1 1 1 1 1 0).
Definition cube_2mm : Cube := self (empty_cube_state example_env 0 1 1 1 2 1 0).

(** A cube whose header says three-byte integers. *)
Definition cube_3_bytes : Cube :=
  set_format_str (Some "<") (set_num_bytes (Some 3) (set_data_type "integer"
    (new_Cube example_env))).

(** A dose cube of one voxel of 1 mm x 1 mm x 1 mm that holds the target
    dose 1000, a region that meets every slice, a histogram function that
    counts one voxel in the bin 1000, and the dot product that adds the
    products up from the left. *)
Definition one_voxel_dose : state := empty_cube_state example_env 1000 1 1 1 1 1 0.
Definition count_at_1000 (_ : Dvh.plane) (_ : unit)
    (_ : option float * option float * option float) : list float :=
  Dvh.one_bin 1000 1.
Definition region_everywhere (_ : float) : option (list unit) := Some [()].
Definition dot_from_left (a b : list float) : float :=
  Dvh.fsum (zip_with PrimFloat.mul a b).

(** ** The vocabulary of the properties *)

(** An array holds as many elements as its shape says. *)
Definition wf_array (a : ndarray) : Prop :=
  List.length a.(arr_data) = shape_size a.(arr_shape).

(** A value is of the element type [dt]: an integer within the range of an
    integer type, a float of a float type (a binary32 one for [float32]). *)
Definition has_dtype (dt : dtype) (v : scalar) : Prop :=
  match dt, v with
  | np_double, SFloat _ => True
  | np_float32, SFloat x => to_float32 x = x
  | (np_int8 | np_int16 | np_int32), SInt z => int_in_range dt z = true
  | _, _ => False
  end.

(** Two arrays of three voxels in a store, and the cubes that hold them. *)
Definition merge_mem : heap :=
  <[2%positive := mk_ndarray np_int16 (1, 1, 3)%nat [SInt 7; SInt 8; SInt 9]]>
    (<[1%positive := mk_ndarray np_int16 (1, 1, 3)%nat [SInt 0; SInt 5; SInt 0]]> ∅).

(** The geometry and the header metadata of a cube: every attribute the
    copying branch of [Cube.__init__] assigns from [cube]. *)
Definition same_metadata (c c' : Cube) : Prop :=
  header_set c' = header_set c /\ version c' = version c /\
  modality c' = modality c /\ created_by c' = created_by c /\
  creation_info c' = creation_info c /\ primary_view c' = primary_view c /\
  data_type c' = data_type c /\ num_bytes c' = num_bytes c /\
  byte_order c' = byte_order c /\ patient_name c' = patient_name c /\
  patient_id c' = patient_id c /\ slice_dimension c' = slice_dimension c /\
  pixel_size c' = pixel_size c /\ slice_distance c' = slice_distance c /\
  slice_thickness c' = slice_thickness c /\ slice_number c' = slice_number c /\
  xoffset c' = xoffset c /\ dimx c' = dimx c /\ yoffset c' = yoffset c /\
  dimy c' = dimy c /\ zoffset c' = zoffset c /\ dimz c' = dimz c /\
  z_table c' = z_table c /\ slice_pos c' = slice_pos c /\
  basename c' = basename c /\
  common_meta_dicom_data c' = common_meta_dicom_data c /\
  common_dicom_data c' = common_dicom_data c /\
  file_specific_dicom_data c' = file_specific_dicom_data c.

(** A cube with the format string and the element type put aside. *)
Definition without_format (c : Cube) : Cube :=
  set_format_str None (set_pydata_type None c).

(** The region of the example: the row through a voxel centre at
    [2.5 <= y <= 6.5], the rows [j] in [2, 7) of a grid of 1 mm pixels
    without offset, meets the region at [x = 2.5] and [x = 7.5]; every other
    row does not meet it. *)
Definition rect_voi : Voi :=
  mk_Voi (fun pos =>
            if (PrimFloat.leb 2.5 pos.1.2 && PrimFloat.leb pos.1.2 6.5)%float
            then Some [2.5; 7.5]%float
            else Some []).

(** The cube of the example: [DosCube()] after
    [create_empty_cube(0, 10, 10, 1, 1.0, 1.0)]. *)
Definition cube_10x10x1 : state := empty_cube_state example_env 0 10 10 1 1 1 0.

(** The voxel [self.cube[k][j][i]] of the cube of a state, when there is one. *)
Definition cube_voxel (s : state) (k j i : nat) : option scalar :=
  l ← cube (self s);
  a ← mem s !! l;
  match np_getitem a k j i with
  | Ok v => Some v
  | Raise _ => None
  end.

(** [m] leaves the attribute [f] of the cube as it is, whatever [m] returns
    or raises. *)
Definition preserves {X A} (f : Cube -> X) (m : M Cube A) : Prop :=
  forall c r c', m c = (r, c') -> f c' = f c.

(** What a line of the header does to an offset: the directive [key]
    stores the [int] it reads, any other line leaves the offset as it is.
    (A directive that does not read makes the parse raise.) *)
Definition directive_offset (key line : string) (before : num) : num :=
  if re_match key line then
    match token1 line ≫= int_of_string with
    | Ok z => PyInt z
    | Raise _ => before
    end
  else before.

(** The offset the loop of [_parse_trip_header] leaves in the cube: that
    of the last directive [key] of the header, or the one the cube had. *)
Definition header_offset (key : string) (lines : list string) (before : num) : num :=
  fold_left (fun acc line => directive_offset key line acc) lines before.

Definition offsets (c : Cube) : num * num * num :=
  (xoffset c, yoffset c, zoffset c).

(** The grid of a cube: what the end of [_parse_trip_header] computes. *)
Definition grid (c : Cube) :=
  (slice_number c, pixel_size c, slice_distance c, z_table c,
   offsets c, slice_pos c, dimz c).

(** A header without a table, whose [slice_number] is 2 and whose [dimz]
    is 3. *)
Definition header_2_of_3 : string :=
  "data_type integer" ++ nl ++ "num_bytes 2" ++ nl ++ "pixel_size 1.0" ++ nl
  ++ "slice_distance 2.5" ++ nl ++ "slice_number 2" ++ nl ++ "xoffset 3" ++ nl
  ++ "zoffset 4" ++ nl ++ "dimz 3" ++ nl.

(** * Properties *)

(** ** The monad *)

Lemma bind_Ok {S A B} (m : M S A) (k : A -> M S B) s a s' :
  m s = (Ok a, s') -> (m ≫= k) s = k a s'.
Proof. intros H. unfold mbind, M_bind, bind. now rewrite H. Qed.

Lemma bind_Raise {S A B} (m : M S A) (k : A -> M S B) s e s' :
  m s = (Raise e, s') -> (m ≫= k) s = (Raise e, s').
Proof. intros H. unfold mbind, M_bind, bind. now rewrite H. Qed.

Lemma bind_inv {S A B} (m : M S A) (k : A -> M S B) s b s' :
  (m ≫= k) s = (Ok b, s') ->
  exists a s1, m s = (Ok a, s1) /\ k a s1 = (Ok b, s').
Proof.
  unfold mbind, M_bind, bind. destruct (m s) as [[a|e] s1]; intros H.
  - now exists a, s1.
  - discriminate.
Qed.

(** Unfolding the monad's operations, so that a method applied to a state
    computes. *)
Ltac munfold :=
  cbv [mbind mret M_bind M_ret bind ret get put modify lift raise when exec
       on_self on_mem on_fs get_self assign attr
       result_bind result_mbind result_ret] in *.

(** ** Compatibility *)

(** With equal dimensions and slice distances, [check_compatibility a b]
    tests [a.pixel_size - b.pixel_size > eps] and nothing else: the
    difference is taken with its sign. *)
Lemma check_compatibility_same_grid (a b : Cube) (pa pb : float) :
  dimx a = dimx b -> dimy a = dimy b -> dimz a = dimz b ->
  pixel_size a = Some pa -> pixel_size b = Some pb ->
  py_ne_float (slice_distance a) (slice_distance b) = false ->
  check_compatibility a b = Ok (negb (PrimFloat.ltb eps (pa - pb))).
Proof.
  intros Hx Hy Hz Ha Hb Hd. unfold check_compatibility.
  assert (Hne : forall x : option Z, py_ne_int x x = false).
  { intros [z|]; simpl; [now rewrite Z.eqb_refl|reflexivity]. }
  rewrite Hx, Hy, Hz, !Hne, Ha, Hb. simpl.
  destruct (PrimFloat.ltb eps (pa - pb)); [reflexivity|]. now rewrite Hd.
Qed.

(** C3 (the code departs from the claim).  [cube_1mm] and [cube_2mm] have
    the same dimensions and slice distance and pixel sizes 1 and 2, a
    difference of 1 in absolute value, far above [eps]: the claim makes them
    incompatible, and [check_compatibility] answers [True], because it
    compares [a.pixel_size - b.pixel_size], here -1, with [eps]. *)
Theorem check_compatibility_accepts_smaller_pixel_size :
  pixel_size cube_1mm = Some 1%float /\ pixel_size cube_2mm = Some 2%float /\
  PrimFloat.leb (PrimFloat.abs (1 - 2)) eps = false /\
  check_compatibility cube_1mm cube_2mm = Ok true.
Proof. repeat split; reflexivity. Qed.

(** C4 (the code departs from the claim).  On the same two cubes the answer
    depends on the order of the arguments. *)
Theorem check_compatibility_not_symmetric :
  check_compatibility cube_1mm cube_2mm = Ok true /\
  check_compatibility cube_2mm cube_1mm = Ok false.
Proof. split; reflexivity. Qed.

(** ** The element type *)

(** For the data type ["integer"] a byte count other than 1, 2 and 4 passes
    [_set_number_of_bytes] without an exception and without any effect, on a
    cube that has a format string. *)
Lemma _set_number_of_bytes_integer_other (c : Cube) (f : string) :
  data_type c = "integer" -> format_str c = Some f ->
  num_bytes c <> Some 1 -> num_bytes c <> Some 2 -> num_bytes c <> Some 4 ->
  _set_number_of_bytes c = (Ok tt, c).
Proof.
  intros Hd Hf H1 H2 H4. unfold _set_number_of_bytes.
  munfold. rewrite Hd. cbn.
  rewrite !bool_decide_eq_false_2 by assumption. now rewrite Hf.
Qed.

(** Only a data type other than ["integer"], ["float"] and ["double"] is
    refused, whatever the byte count. *)
Lemma _set_number_of_bytes_unsupported (c : Cube) :
  data_type c <> "integer" -> data_type c <> "float" -> data_type c <> "double" ->
  _set_number_of_bytes c = (Raise (IOError "Unsupported format."), c).
Proof.
  intros Hi Hf Hd. unfold _set_number_of_bytes. munfold.
  apply String.eqb_neq in Hi, Hf, Hd. now rewrite Hi, Hf, Hd.
Qed.

(** C5 (the code departs from the claim).  With byte count 3 and data type
    ["integer"], [_set_number_of_bytes] raises nothing: it returns and leaves
    the cube as it was, the format string still without a type character. *)
Theorem _set_number_of_bytes_accepts_3_byte_integer :
  data_type cube_3_bytes = "integer" /\ num_bytes cube_3_bytes = Some 3 /\
  _set_number_of_bytes cube_3_bytes = (Ok tt, cube_3_bytes) /\
  format_str cube_3_bytes = Some "<".
Proof. repeat split; reflexivity. Qed.

(** ** [read] on a missing header *)

Lemma os_path_exists_None (f : files) (p : string) :
  f !! p = None -> os_path_exists f p = false.
Proof.
  intros H. unfold os_path_exists. apply bool_decide_eq_false_2.
  rewrite H. now intros [x Hx].
Qed.

(** C6, the counterexample.  [read] with the single path ["missing"], on a
    new cube and with no file at all, raises [FileNotFound], and the cube's
    [basename] has changed from the empty string to ["missing"] by then: the
    state after the failed [read] is not the state before. *)
Lemma read_missing_string_path_mutates :
  basename (self (new_state example_env)) = "" /\
  fst (read example_env (PathStr "missing") (new_state example_env))
    = Raise (FileNotFound "Loading missing failed, file not found") /\
  basename (self (snd (read example_env (PathStr "missing") (new_state example_env))))
    = "missing" /\
  snd (read example_env (PathStr "missing") (new_state example_env))
    <> new_state example_env.
Proof.
  repeat split; try reflexivity.
  intros H. apply (f_equal (fun s => basename (self s))) in H.
  vm_compute in H. discriminate.
Qed.

(** C6, as amended.  Given a header path and a data path, [read] on a header
    path that does not exist raises [FileNotFound] and leaves the state as it
    was.  Given a single path for which the locator finds no header, [read]
    raises [FileNotFound] too, after it has set [basename] from the path:
    nothing else has changed. *)
Theorem read_missing_header (E : Env) (s : state) :
  (forall header_path datafile_path,
     fs s !! header_path = None ->
     read E (PathSeq [header_path; datafile_path]) s
     = (Raise (FileNotFound ("Loading " ++ header_path ++ " failed, file not found")), s))
  /\
  (forall p,
     truthy (locator_header E (fs s) p) = false ->
     read E (PathStr p) s
     = (Raise (FileNotFound ("Loading " ++ p ++ " failed, file not found")),
        mk_state (set_basename (os_path_basename (path_basename E p)) (self s))
                 (mem s) (fs s))).
Proof.
  split.
  - intros hp dp H. unfold read. munfold.
    rewrite (os_path_exists_None _ _ H). cbn. now destruct s.
  - intros p H. unfold read. munfold. cbn.
    rewrite H, orb_true_r. reflexivity.
Qed.

Lemma read_missing_header_witness :
  read example_env (PathSeq ["missing.hed"; "missing.dos"]) (new_state example_env)
  = (Raise (FileNotFound "Loading missing.hed failed, file not found"),
     new_state example_env).
Proof.
  apply (proj1 (read_missing_header example_env (new_state example_env))).
  reflexivity.
Defined.

(** ** [merge_zero] *)

(** The conversion keeps an element that is of the target type already. *)
Lemma np_convert_has_dtype (dt : dtype) (v : scalar) :
  has_dtype dt v -> np_convert dt v = Some v.
Proof.
  destruct v as [z|x]; cbn [np_convert].
  - intros Hr.
    assert (Hi : is_integer_dtype dt = true /\ int_in_range dt z = true).
    { destruct dt; cbn in Hr |- *; try contradiction; split; trivial. }
    destruct Hi as [Hi Hr']. unfold int_in_range in Hr'.
    apply andb_true_iff in Hr' as [H1 H2].
    apply Z.leb_le in H1. apply Z.ltb_lt in H2.
    assert (Hw : wrap_int (int_bits dt) z = z).
    { unfold wrap_int.
      assert (Hb : 2 ^ int_bits dt = 2 * 2 ^ (int_bits dt - 1)).
      { destruct dt; reflexivity. }
      rewrite Hb, Z.mod_small; lia. }
    destruct dt; try discriminate; cbn [np_of_int]; now rewrite Hw.
  - destruct dt; cbn; try contradiction; [intros ->|]; reflexivity.
Qed.

Lemma np_cast_convert cc (dt : dtype) (v w : scalar) :
  np_convert dt v = Some w -> np_cast cc dt v = w.
Proof.
  destruct v as [z|x]; cbn [np_convert np_cast].
  - now intros [= <-].
  - now intros ->.
Qed.

(** C9.  When both cubes hold an array and the two arrays have one shape,
    [self.merge_zero(other)] returns, and the state it leaves differs from
    the state before in the array of [self] only; element type and shape
    stay.  In that array a voxel that was not zero is what it was.  A voxel
    that was zero is the voxel of [other] at the same index: that value
    itself when it is of the element type of [self], and in general its
    conversion to that type, wherever the conversion is defined (the
    conversion of a nan, an infinity or a float outside an integer type is
    left to the machine and nothing is said of it). *)
Theorem merge_zero_changes_only_zeros
    (cc : dtype -> float -> Z) (s : state) (other : Cube) (la lb : loc)
    (a b : ndarray) :
  cube (self s) = Some la -> cube other = Some lb ->
  mem s !! la = Some a -> mem s !! lb = Some b ->
  arr_shape a = arr_shape b -> wf_array a -> wf_array b ->
  exists a',
    merge_zero cc other s = (Ok tt, mk_state (self s) (<[la := a']> (mem s)) (fs s)) /\
    arr_dtype a' = arr_dtype a /\ arr_shape a' = arr_shape a /\
    List.length (arr_data a') = List.length (arr_data a) /\
    (forall i x, arr_data a !! i = Some x -> scalar_is_zero x = false ->
       arr_data a' !! i = Some x) /\
    (forall i x, arr_data a !! i = Some x -> scalar_is_zero x = true ->
       exists y, arr_data b !! i = Some y /\
         (has_dtype (arr_dtype a) y -> arr_data a' !! i = Some y) /\
         (forall w, np_convert (arr_dtype a) y = Some w -> arr_data a' !! i = Some w)).
Proof.
  intros Hla Hlb Ha Hb Hsh Hwa Hwb.
  set (f := fun x y => if scalar_is_zero x then np_cast cc (arr_dtype a) y else x).
  exists (mk_ndarray (arr_dtype a) (arr_shape a) (zip_with f (arr_data a) (arr_data b))).
  assert (Hlen : List.length (arr_data b) = List.length (arr_data a)).
  { unfold wf_array in *. congruence. }
  split; [|split; [|split; [|split; [|split]]]].
  - destruct s as [c h fl]. cbn [self mem fs] in *.
    unfold merge_zero, deref. munfold. cbn [self mem fs]. rewrite Hlb, Hla.
    cbn [self mem fs]. rewrite Hb. cbn [self mem fs]. rewrite Ha.
    cbn [self mem fs]. rewrite bool_decide_eq_true_2 by assumption. reflexivity.
  - reflexivity.
  - reflexivity.
  - cbn. rewrite length_zip_with. lia.
  - intros i x Hx Hz. cbn. rewrite lookup_zip_with, Hx. cbn.
    destruct (lookup_lt_is_Some_2 (arr_data b) i) as [y Hy].
    { rewrite Hlen. eapply lookup_lt_Some, Hx. }
    rewrite Hy. cbn. unfold f. now rewrite Hz.
  - intros i x Hx Hz.
    destruct (lookup_lt_is_Some_2 (arr_data b) i) as [y Hy].
    { rewrite Hlen. eapply lookup_lt_Some, Hx. }
    exists y. split; [assumption|].
    assert (Hw : forall w, np_convert (arr_dtype a) y = Some w ->
                   arr_data (mk_ndarray (arr_dtype a) (arr_shape a)
                               (zip_with f (arr_data a) (arr_data b))) !! i = Some w).
    { intros w Hw. cbn. rewrite lookup_zip_with, Hx. cbn. rewrite Hy. cbn.
      unfold f. now rewrite Hz, (np_cast_convert cc _ _ _ Hw). }
    split; [|exact Hw].
    intros Ht. apply Hw. now apply np_convert_has_dtype.
Qed.

Lemma merge_zero_changes_only_zeros_witness :
  exists a',
    merge_zero (c_cast example_env) (set_cube (Some 2%positive) cube_1mm)
      (mk_state (set_cube (Some 1%positive) cube_1mm) merge_mem ∅)
    = (Ok tt, mk_state (set_cube (Some 1%positive) cube_1mm)
                (<[1%positive := a']> merge_mem) ∅) /\
    arr_data a' = [SInt 7; SInt 5; SInt 9].
Proof.
  destruct (merge_zero_changes_only_zeros (c_cast example_env)
              (mk_state (set_cube (Some 1%positive) cube_1mm) merge_mem ∅)
              (set_cube (Some 2%positive) cube_1mm) 1%positive 2%positive
              (mk_ndarray np_int16 (1, 1, 3)%nat [SInt 0; SInt 5; SInt 0])
              (mk_ndarray np_int16 (1, 1, 3)%nat [SInt 7; SInt 8; SInt 9])
              eq_refl eq_refl eq_refl eq_refl eq_refl eq_refl eq_refl)
    as (a' & Hrun & _ & _ & _ & _ & _).
  exists a'. split; [exact Hrun|].
  vm_compute in Hrun. injection Hrun as Hrun.
  destruct a' as [dt sh data]. cbn.
  now injection Hrun.
Defined.

(** ** The copying constructor *)

Lemma without_format_same_metadata (c c' : Cube) :
  without_format c' = without_format c -> same_metadata c c'.
Proof.
  destruct c, c'. unfold without_format. cbn. intros H.
  injection H as ->->->->->->->->->->->->->->->->->->->->->->->->->->->->.
  repeat split.
Qed.

Lemma same_metadata_trans (c1 c2 c3 : Cube) :
  same_metadata c1 c2 -> same_metadata c2 c3 -> same_metadata c1 c3.
Proof.
  unfold same_metadata.
  intros (?&?&?&?&?&?&?&?&?&?&?&?&?&?&?&?&?&?&?&?&?&?&?&?&?&?&?&?)
         (?&?&?&?&?&?&?&?&?&?&?&?&?&?&?&?&?&?&?&?&?&?&?&?&?&?&?&?).
  repeat split; congruence.
Qed.

(** [_set_number_of_bytes] and [_set_format_str] touch the format string
    and the element type only, also when they raise. *)
Lemma _set_number_of_bytes_frame (c c' : Cube) r :
  _set_number_of_bytes c = (r, c') -> without_format c' = without_format c.
Proof.
  unfold _set_number_of_bytes, append_format_str. munfold. destruct c. cbn.
  repeat case_match; intros; simplify_eq; reflexivity.
Qed.

Lemma _set_format_str_frame (c c' : Cube) r :
  _set_format_str c = (r, c') -> without_format c' = without_format c.
Proof.
  unfold _set_format_str. munfold.
  destruct (String.eqb (byte_order c) "vms");
    [|destruct (String.eqb (byte_order c) "aix")];
    intros H; apply _set_number_of_bytes_frame in H; rewrite H; now destruct c.
Qed.

(** With a byte order and a data type that [_set_format_str] knows, it
    returns. *)
Lemma _set_number_of_bytes_returns (c : Cube) (f : string) :
  format_str c = Some f ->
  data_type c = "integer" \/ data_type c = "float" \/ data_type c = "double" ->
  exists c', _set_number_of_bytes c = (Ok tt, c') /\ exists f', format_str c' = Some f'.
Proof.
  intros Hf Hd. unfold _set_number_of_bytes, append_format_str. munfold.
  destruct c as [? ? ? ? ? ? dty nb ? ? ? ? ? ? ? ? ? ? ? ? ? ? ? ? ? ? ? ? fm ? ? ?].
  cbn in Hf, Hd. subst fm.
  destruct Hd as [-> | [-> | ->]]; cbn;
    (destruct (decide (nb = Some 1)) as [->|N1]; [cbn; eauto|];
     destruct (decide (nb = Some 2)) as [->|N2]; [cbn; eauto|];
     destruct (decide (nb = Some 4)) as [->|N4]; [cbn; eauto|];
     destruct (decide (nb = Some 8)) as [->|N8]; [cbn; eauto|];
     rewrite ?bool_decide_eq_false_2 by assumption; cbn; eauto).
Qed.

Lemma _set_format_str_returns (c : Cube) :
  byte_order c = "vms" \/ byte_order c = "aix" ->
  data_type c = "integer" \/ data_type c = "float" \/ data_type c = "double" ->
  exists c', _set_format_str c = (Ok tt, c') /\ exists f', format_str c' = Some f'.
Proof.
  intros Hb Hd. unfold _set_format_str. munfold.
  destruct Hb as [Hb|Hb]; rewrite Hb; cbn.
  - apply (_set_number_of_bytes_returns _ "<"); [now destruct c|now destruct c].
  - apply (_set_number_of_bytes_returns _ ">"); [now destruct c|now destruct c].
Qed.

(** An array of zeros has its shape and holds a zero at every index. *)
Lemma zeros_getitem (nz ny nx : nat) (dt : dtype) (k j i : nat) :
  (k < nz)%nat -> (j < ny)%nat -> (i < nx)%nat ->
  np_getitem (zeros (nz, ny, nx) dt) k j i
  = Ok (if is_integer_dtype dt then SInt 0 else SFloat 0).
Proof.
  intros Hk Hj Hi. unfold np_getitem, zeros. cbn [arr_shape arr_data in_shape].
  destruct (Nat.ltb_spec k nz); [|lia]. destruct (Nat.ltb_spec j ny); [|lia].
  destruct (Nat.ltb_spec i nx); [|lia]. cbn [andb].
  rewrite lookup_replicate_2.
  - now destruct dt.
  - unfold flat_index, shape_size.
    assert (H2 : (k * ny + j + 1 <= nz * ny)%nat) by nia.
    assert (H3 : ((k * ny + j + 1) * nx <= nz * ny * nx)%nat)
      by (apply Nat.mul_le_mono_r; exact H2).
    lia.
Qed.

(** C10.  Whenever [Cube(c)] returns a cube, that cube has the geometry and
    the header metadata of [c], and its voxel array is a new array of the
    element type of [c] and of shape [(dimz, dimy, dimx)], which holds
    [dimz * dimy * dimx] elements, every one the zero of the type, at an
    address no array had: the data of [c] are not copied, and no array of
    the store, that of [c] among them, is shared or changed.  [Cube(c)]
    does return for a cube [c] whose byte order is ["vms"] or ["aix"], whose
    data type is ["integer"], ["float"] or ["double"], which has an element
    type, and whose dimensions are integers that are not negative, when
    numpy gets the memory for the array. *)
Theorem copy_constructor_fresh_zero_array (E : Env) (c : Cube) (h : heap) :
  (forall c' h',
     Cube_init E (Some c) h = (Ok c', h') ->
     same_metadata c c' /\
     exists l a dt nz ny nx,
       pydata_type c = Some dt /\
       py_dim (dimz c) = Ok nz /\ py_dim (dimy c) = Ok ny /\ py_dim (dimx c) = Ok nx /\
       cube c' = Some l /\ h !! l = None /\
       h' = <[l := a]> h /\
       arr_dtype a = dt /\ arr_shape a = (nz, ny, nx) /\
       List.length (arr_data a) = (nz * ny * nx)%nat /\
       Forall (fun v => v = if is_integer_dtype dt then SInt 0 else SFloat 0)
         (arr_data a) /\
       (forall k j i, (k < nz)%nat -> (j < ny)%nat -> (i < nx)%nat ->
          np_getitem a k j i = Ok (if is_integer_dtype dt then SInt 0 else SFloat 0)) /\
       (forall lc, cube c = Some lc -> is_Some (h !! lc) ->
          l <> lc /\ h' !! lc = h !! lc))
  /\
  (forall dt nz ny nx,
     (byte_order c = "vms" \/ byte_order c = "aix") ->
     (data_type c = "integer" \/ data_type c = "float" \/ data_type c = "double") ->
     pydata_type c = Some dt ->
     dimz c = Some nz -> dimy c = Some ny -> dimx c = Some nx ->
     0 <= nz -> 0 <= ny -> 0 <= nx ->
     np_zeros_error E (Z.to_nat nz, Z.to_nat ny, Z.to_nat nx) dt = None ->
     exists c' h', Cube_init E (Some c) h = (Ok c', h')).
Proof.
  split.
  - intros c' h'. unfold Cube_init.
    set (self0 := mk_Cube _ _ _ _ _ _ _ _ _ _ _ _ _ _ _ _ _ _ _ _ _ _ _ _ _ _ _ _ _ _ _ _).
    assert (H0 : same_metadata c self0) by (repeat split).
    unfold exec. munfold.
    destruct (_set_format_str self0) as [[[]|e] s1] eqn:H1; [|discriminate].
    destruct (_set_number_of_bytes s1) as [[[]|e] s2] eqn:H2; [|discriminate].
    apply _set_format_str_frame in H1. apply _set_number_of_bytes_frame in H2.
    assert (H12 : same_metadata c s2).
    { apply (same_metadata_trans _ self0); [exact H0|].
      apply without_format_same_metadata. now rewrite H2, H1. }
    destruct (pydata_type c) as [dt|] eqn:Hdt; [|discriminate]. cbn.
    destruct (py_dim (dimz s2)) as [nz|] eqn:Hz; [|discriminate].
    destruct (py_dim (dimy s2)) as [ny|] eqn:Hy; [|discriminate].
    destruct (py_dim (dimx s2)) as [nx|] eqn:Hx; [|discriminate].
    destruct (np_zeros_error E (nz, ny, nx) dt); [discriminate|].
    unfold alloc. intros H. injection H as <- <-.
    split.
    { destruct H12 as (?&?&?&?&?&?&?&?&?&?&?&?&?&?&?&?&?&?&?&?&?&?&?&?&?&?&?&?).
      destruct s2; cbn in *. repeat split; assumption. }
    exists (fresh (dom h)), (zeros (nz, ny, nx) dt), dt, nz, ny, nx.
    assert (Hfresh : h !! fresh (dom h) = None).
    { apply not_elem_of_dom, is_fresh. }
    destruct H12 as (_&_&_&_&_&_&_&_&_&_&_&_&_&_&_&_&_&Ex&_&Ey&_&Ez&_).
    rewrite Ez in Hz. rewrite Ey in Hy. rewrite Ex in Hx.
    split; [reflexivity|]. split; [exact Hz|]. split; [exact Hy|]. split; [exact Hx|].
    split; [reflexivity|]. split; [exact Hfresh|]. split; [reflexivity|].
    split; [reflexivity|]. split; [reflexivity|].
    split; [apply length_replicate|].
    split.
    { unfold zeros. cbn [arr_data]. apply Forall_replicate. now destruct dt. }
    split; [intros k j i; apply zeros_getitem|].
    intros lc Hlc Hsome. split.
    + intros Heq. rewrite <- Heq, Hfresh in Hsome. now destruct Hsome.
    + apply lookup_insert_ne. intros Heq. rewrite <- Heq, Hfresh in Hsome. now destruct Hsome.
  - intros dt nz ny nx Hb Hd Hdt Hz Hy Hx Hnz Hny Hnx Hmem. unfold Cube_init.
    set (self0 := mk_Cube _ _ _ _ _ _ _ _ _ _ _ _ _ _ _ _ _ _ _ _ _ _ _ _ _ _ _ _ _ _ _ _).
    destruct (_set_format_str_returns self0 Hb Hd) as (s1 & H1 & f1 & Hf1).
    assert (Hd1 : data_type s1 = "integer" \/ data_type s1 = "float" \/ data_type s1 = "double").
    { pose proof (without_format_same_metadata _ _ (_set_format_str_frame _ _ _ H1)) as Hm.
      destruct Hm as (_&_&_&_&_&_&->&_). exact Hd. }
    destruct (_set_number_of_bytes_returns s1 f1 Hf1 Hd1) as (s2 & H2 & _).
    pose proof (without_format_same_metadata _ _ (_set_format_str_frame _ _ _ H1)) as Hm1.
    pose proof (without_format_same_metadata _ _ (_set_number_of_bytes_frame _ _ _ H2)) as Hm2.
    unfold exec. munfold. rewrite H1, H2, Hdt. cbn.
    destruct Hm1 as (_&_&_&_&_&_&_&_&_&_&_&_&_&_&_&_&_&Ex1&_&Ey1&_&Ez1&_).
    destruct Hm2 as (_&_&_&_&_&_&_&_&_&_&_&_&_&_&_&_&_&Ex2&_&Ey2&_&Ez2&_).
    rewrite Ez2, Ez1, Ey2, Ey1, Ex2, Ex1. cbn. rewrite Hz, Hy, Hx. cbn.
    destruct (Z.ltb_spec nz 0); [lia|]. destruct (Z.ltb_spec ny 0); [lia|].
    destruct (Z.ltb_spec nx 0); [lia|]. cbn. rewrite Hmem. cbn. eauto.
Qed.

Lemma copy_constructor_fresh_zero_array_witness :
  exists c' h' l a,
    Cube_init example_env (Some (self cube_of_sevens)) (mem cube_of_sevens) = (Ok c', h') /\
    cube c' = Some l /\ h' !! l = Some a /\
    arr_shape a = (1, 2, 3)%nat /\ np_getitem a 0 1 2 = Ok (SInt 0) /\
    cube_voxel cube_of_sevens 0 1 2 = Some (SInt 7).
Proof.
  pose proof (copy_constructor_fresh_zero_array example_env (self cube_of_sevens)
                (mem cube_of_sevens)) as [HA HB].
  destruct (HB np_int16 1 2 3) as (c' & h' & Hrun);
    try solve [ reflexivity | left; reflexivity | lia ].
  destruct (HA c' h' Hrun)
    as (_ & l & a & dt & nz & ny & nx & Hdt & Hz & Hy & Hx & Hl & _ & Hh & _ & Hs & _ & _ & Hv & _).
  vm_compute in Hdt, Hz, Hy, Hx.
  injection Hdt as <-. injection Hz as <-. injection Hy as <-. injection Hx as <-.
  exists c', h', l, a. split; [exact Hrun|]. split; [exact Hl|].
  split; [subst h'; apply lookup_insert_eq|]. split; [exact Hs|].
  split; [apply Hv; lia|]. reflexivity.
Defined.

(** ** Masking a rectangle *)

Lemma np_store_int16 (z : Z) :
  -32768 <= z < 32768 -> np_store_int np_int16 z = Ok (SInt z).
Proof.
  intros H. unfold np_store_int, int_in_range. cbn [is_integer_dtype int_bits].
  change (- 2 ^ (16 - 1)) with (-32768). change (2 ^ (16 - 1)) with 32768.
  destruct (Z.leb_spec (-32768) z); [|lia].
  destruct (Z.ltb_spec z 32768); [|lia]. reflexivity.
Qed.

(** The loops on the 10 x 10 x 1 grid: rows 2 to 6 are filled from column 3
    to column 7.  The voxel centre of column 2 is at 2.5, which is not
    greater than the crossing at 2.5, and that of column 7 is at 7.5, not
    greater than the crossing at 7.5. *)
Lemma mask_loops_rectangle (c : Cube) (preset : Z) (z0 : float) (zs : list float) :
  dimx c = Some 10 -> dimy c = Some 10 -> dimz c = Some 1 ->
  pixel_size c = Some 1%float -> xoffset c = PyFloat 0 -> yoffset c = PyFloat 0 ->
  slice_pos c = z0 :: zs -> -32768 <= preset < 32768 ->
  exec (mask_loops c rect_voi preset) (zeros (1, 10, 10)%nat np_int16)
  = Ok (mk_ndarray np_int16 (1, 10, 10)%nat
          (map (fun n => SInt (if ((3 <=? n mod 10) && (n mod 10 <? 8)
                                   && (2 <=? n / 10) && (n / 10 <? 7))%nat
                               then preset else 0))
               (seq 0 100))).
Proof.
  intros Hx Hy Hz Hp Hxo Hyo Hs Hr.
  destruct c; cbn in Hx, Hy, Hz, Hp, Hxo, Hyo, Hs; subst.
  pose proof (np_store_int16 preset Hr) as Hst.
  do 26 (cbv -[np_store_int]; rewrite ?Hst).
  reflexivity.
Qed.

(** C1, the counterexample.  On the cube of the example and with preset 1,
    the voxel at [i = 2], [j = 2], which the claim puts inside, is left at
    zero, and the voxel at [i = 7], [j = 2], which the claim puts outside,
    receives the preset. *)
Lemma mask_by_voi_all_block_starts_at_3 :
  fst (mask_by_voi_all rect_voi 1 np_int16 cube_10x10x1) = Ok tt /\
  cube_voxel (snd (mask_by_voi_all rect_voi 1 np_int16 cube_10x10x1)) 0 2 2
  = Some (SInt 0) /\
  cube_voxel (snd (mask_by_voi_all rect_voi 1 np_int16 cube_10x10x1)) 0 2 7
  = Some (SInt 1).
Proof. repeat split; vm_compute; reflexivity. Qed.

(** C1, as amended.  For a cube of 10 x 10 x 1 voxels with pixel size 1 mm
    and no x and y offset, the region [rect_voi] and a preset that is not
    zero (and is an int16), [mask_by_voi_all] gives the cube a new array in
    which exactly the voxels with [i] in [3, 8) and [j] in [2, 7) hold the
    preset, and every other voxel holds zero. *)
Theorem mask_by_voi_all_rectangle
    (s : state) (preset : Z) (z0 : float) (zs : list float) :
  dimx (self s) = Some 10 -> dimy (self s) = Some 10 -> dimz (self s) = Some 1 ->
  pixel_size (self s) = Some 1%float ->
  xoffset (self s) = PyFloat 0 -> yoffset (self s) = PyFloat 0 ->
  slice_pos (self s) = z0 :: zs ->
  preset <> 0 -> -32768 <= preset < 32768 ->
  exists data,
    mask_by_voi_all rect_voi preset np_int16 s
    = (Ok tt, mk_state (set_cube (Some (fresh (dom (mem s)))) (self s))
                (<[fresh (dom (mem s)) := data]> (mem s)) (fs s)) /\
    arr_dtype data = np_int16 /\ arr_shape data = (1, 10, 10)%nat /\
    forall i j : nat, (i < 10)%nat -> (j < 10)%nat ->
      np_getitem data 0 j i
      = Ok (SInt (if ((3 <=? i) && (i <? 8) && (2 <=? j) && (j <? 7))%nat
                  then preset else 0)).
Proof.
  intros Hx Hy Hz Hp Hxo Hyo Hs Hne Hr.
  exists (mk_ndarray np_int16 (1, 10, 10)%nat
            (map (fun n => SInt (if ((3 <=? n mod 10) && (n mod 10 <? 8)
                                     && (2 <=? n / 10) && (n / 10 <? 7))%nat
                                 then preset else 0))
                 (seq 0 100))).
  split; [|split; [|split]].
  - unfold mask_by_voi_all. munfold. destruct s as [c h fl]. cbn [self mem fs] in *.
    rewrite Hz, Hy, Hx. cbn [py_dim Z.ltb Z.compare Z.to_nat Pos.to_nat Pos.iter_op Nat.add].
    apply Z.eqb_neq in Hne. rewrite Hne. cbn [negb].
    pose proof (mask_loops_rectangle c preset z0 zs Hx Hy Hz Hp Hxo Hyo Hs Hr) as Hl.
    unfold exec in Hl.
    change (Z.to_nat 1) with 1%nat. change (Z.to_nat 10) with 10%nat.
    rewrite Hl. unfold alloc. cbn [self mem fs]. reflexivity.
  - reflexivity.
  - reflexivity.
  - intros i j Hi Hj.
    do 10 (destruct j as [|j]; [do 10 (destruct i as [|i]; [reflexivity|]); lia|]).
    lia.
Qed.

Lemma mask_by_voi_all_rectangle_witness :
  exists data,
    mask_by_voi_all rect_voi 1 np_int16 cube_10x10x1
    = (Ok tt, mk_state (set_cube (Some (fresh (dom (mem cube_10x10x1)))) (self cube_10x10x1))
                (<[fresh (dom (mem cube_10x10x1)) := data]> (mem cube_10x10x1))
                (fs cube_10x10x1)) /\
    np_getitem data 0 2 3 = Ok (SInt 1) /\ np_getitem data 0 2 2 = Ok (SInt 0).
Proof.
  destruct (mask_by_voi_all_rectangle cube_10x10x1 1 0%float []
              eq_refl eq_refl eq_refl eq_refl eq_refl eq_refl eq_refl)
    as (data & Hrun & _ & _ & Hv); [lia|lia|].
  exists data. split; [exact Hrun|]. split.
  - apply (Hv 3%nat 2%nat); lia.
  - apply (Hv 2%nat 2%nat); lia.
Defined.

(** ** Parsing a header *)

Lemma preserves_ret {X A} (f : Cube -> X) (a : A) : preserves f (ret a : M Cube A).
Proof. intros c r c' [= _ <-]. reflexivity. Qed.

Lemma preserves_mret {X A} (f : Cube -> X) (a : A) : preserves f (mret a : M Cube A).
Proof. apply preserves_ret. Qed.

Lemma preserves_raise {X A} (f : Cube -> X) e : preserves f (raise e : M Cube A).
Proof. intros c r c' [= _ <-]. reflexivity. Qed.

Lemma preserves_lift {X A} (f : Cube -> X) (x : result A) : preserves f (lift x).
Proof. intros c r c' [= _ <-]. reflexivity. Qed.

Lemma preserves_get {X} (f : Cube -> X) : preserves f get.
Proof. intros c r c' [= _ <-]. reflexivity. Qed.

Lemma preserves_modify {X} (f : Cube -> X) (g : Cube -> Cube) :
  (forall c, f (g c) = f c) -> preserves f (modify g).
Proof. intros H c r c' [= _ <-]. apply H. Qed.

Lemma preserves_bind {X A B} (f : Cube -> X) (m : M Cube A) (k : A -> M Cube B) :
  preserves f m -> (forall a, preserves f (k a)) -> preserves f (m ≫= k).
Proof.
  intros Hm Hk c r c'. unfold mbind, M_bind, bind.
  destruct (m c) as [[a|e] c1] eqn:E.
  - intros H. rewrite (Hk a _ _ _ H). exact (Hm _ _ _ E).
  - intros [= _ <-]. exact (Hm _ _ _ E).
Qed.

Lemma preserves_when {X} (f : Cube -> X) (b : bool) (m : M Cube unit) :
  preserves f m -> preserves f (when b m).
Proof. destruct b; [trivial|]. intros _. apply preserves_ret. Qed.

Lemma preserves_if {X A} (f : Cube -> X) (b : bool) (m1 m2 : M Cube A) :
  preserves f m1 -> preserves f m2 -> preserves f (if b then m1 else m2).
Proof. now destruct b. Qed.

Lemma preserves_for_in {X A K} (f : Cube -> X) (xs : list A) (acc : K)
    (body : A -> K -> M Cube (ctl * K)) :
  (forall x k, preserves f (body x k)) -> preserves f (for_in xs acc body).
Proof.
  intros Hb. revert acc. induction xs as [|x xs IH]; intros acc; cbn [for_in].
  - apply preserves_ret.
  - apply preserves_bind; [apply Hb|]. intros [[] k]; [apply IH|apply preserves_ret].
Qed.

Create HintDb preserves.
#[local] Hint Resolve preserves_ret preserves_mret preserves_raise preserves_lift
  preserves_get preserves_bind preserves_when preserves_if preserves_for_in
  : preserves.
#[local] Hint Extern 1 (preserves _ (modify _)) =>
  (apply preserves_modify; intros; reflexivity) : preserves.

Lemma preserves_directive_str {X} (f : Cube -> X) key set line :
  (forall v c, f (set v c) = f c) -> preserves f (directive_str key set line).
Proof.
  intros H. unfold directive_str.
  apply preserves_when, preserves_bind; [apply preserves_lift|].
  intros t. now apply preserves_modify.
Qed.

Lemma preserves_directive_int {X} (f : Cube -> X) key set line :
  (forall v c, f (set v c) = f c) -> preserves f (directive_int key set line).
Proof.
  intros H. unfold directive_int.
  apply preserves_when, preserves_bind; [apply preserves_lift|].
  intros t. apply preserves_bind; [apply preserves_lift|].
  intros z. now apply preserves_modify.
Qed.

Lemma preserves_directive_float {X} (f : Cube -> X) key set line :
  (forall v c, f (set v c) = f c) -> preserves f (directive_float key set line).
Proof.
  intros H. unfold directive_float.
  apply preserves_when, preserves_bind; [apply preserves_lift|].
  intros t. apply preserves_bind; [apply preserves_lift|].
  intros z. now apply preserves_modify.
Qed.

Lemma preserves_directive_text {X} (f : Cube -> X) key set line :
  (forall v c, f (set v c) = f c) -> preserves f (directive_text key set line).
Proof.
  intros H. unfold directive_text. now apply preserves_when, preserves_modify.
Qed.

#[local] Hint Extern 1 (preserves _ (directive_str _ _ _)) =>
  (apply preserves_directive_str; intros; reflexivity) : preserves.
#[local] Hint Extern 1 (preserves _ (directive_int _ _ _)) =>
  (apply preserves_directive_int; intros; reflexivity) : preserves.
#[local] Hint Extern 1 (preserves _ (directive_float _ _ _)) =>
  (apply preserves_directive_float; intros; reflexivity) : preserves.
#[local] Hint Extern 1 (preserves _ (directive_text _ _ _)) =>
  (apply preserves_directive_text; intros; reflexivity) : preserves.

(** The directives leave the table flag alone. *)
Lemma parse_directives_z_table line : preserves z_table (parse_directives line).
Proof. unfold parse_directives. auto 30 with preserves. Qed.

Lemma directive_int_Ok key set line c c' :
  directive_int key set line c = (Ok tt, c') ->
  c' = if re_match key line then
         match token1 line ≫= int_of_string with
         | Ok z => set z c
         | Raise _ => c
         end
       else c.
Proof.
  unfold directive_int. munfold. destruct (re_match key line); [|congruence].
  destruct (token1 line) as [t|e]; cbn; [|discriminate].
  destruct (int_of_string t) as [z|e]; cbn; [|discriminate]. congruence.
Qed.

(** One step of a sequence that returned, with what it preserves. *)
Ltac pres_step f H :=
  let a := fresh "a" in let c := fresh "c" in let H1 := fresh "H" in
  apply bind_inv in H; destruct H as (a & c & H1 & H); destruct a;
  match type of H1 with
  | ?m _ = _ =>
      let Hp := fresh "Hp" in
      assert (Hp : preserves f m) by auto with preserves;
      apply Hp in H1; clear Hp
  end.

Lemma parse_directives_offsets line c c' :
  parse_directives line c = (Ok tt, c') ->
  offsets c' = (directive_offset "xoffset" line (xoffset c),
                directive_offset "yoffset" line (yoffset c),
                directive_offset "zoffset" line (zoffset c)).
Proof.
  unfold parse_directives. intros H.
  do 13 pres_step offsets H.
  apply bind_inv in H as ([] & cx & Hx & H). apply directive_int_Ok in Hx.
  apply bind_inv in H as ([] & cy & Hy & H). apply directive_int_Ok in Hy.
  apply bind_inv in H as ([] & cz & Hz & H). apply directive_int_Ok in Hz.
  assert (Hp : preserves offsets
    (directive_int "dimx" (fun z => set_dimx (Some z)) line;;
     directive_int "dimy" (fun z => set_dimy (Some z)) line;;
     directive_int "dimz" (fun z => set_dimz (Some z)) line)) by auto with preserves.
  apply Hp in H. rewrite H. clear H Hp.
  assert (E : offsets c12 = offsets c) by congruence.
  clear - E Hx Hy Hz. unfold offsets in *. injection E as Ex Ey Ez.
  unfold directive_offset. subst cz cy cx.
  destruct (re_match "xoffset" line), (re_match "yoffset" line),
    (re_match "zoffset" line), (token1 line ≫= int_of_string); cbn; congruence.
Qed.

Lemma py_list_index_nat {A} (l : list A) (i : nat) :
  py_list_index l (Z.of_nat i)
  = match l !! i with Some a => Ok a | None => Raise IndexError end.
Proof.
  unfold py_list_index.
  destruct (Z.ltb_spec (Z.of_nat i) 0) as [H|H]; [lia|].
  destruct (Z.ltb_spec (Z.of_nat i) 0); [lia|]. now rewrite Nat2Z.id.
Qed.

Lemma parse_table_z_table content i c i' c' :
  parse_table content i c = (Ok i', c') -> z_table c' = true.
Proof.
  unfold parse_table. intros H.
  apply bind_inv in H as (self0 & c0 & H0 & H). injection H0 as <- <-.
  apply bind_inv in H as (js & c1 & H1 & H).
  unfold lift in H1. injection H1 as H1 <-.
  apply bind_inv in H as ([] & c2 & H2 & H). injection H2 as <-.
  apply bind_inv in H as ([] & c3 & H3 & H). injection H3 as <-.
  assert (Hp : preserves z_table (for_in js (S i) (parse_table_row content))).
  { apply preserves_for_in. intros x k. unfold parse_table_row. auto 10 with preserves. }
  apply Hp in H. rewrite H. reflexivity.
Qed.

Lemma parse_loop_z_table fuel content i ds c ds' c' :
  parse_loop fuel content i ds c = (Ok ds', c') ->
  z_table c = true -> z_table c' = true.
Proof.
  revert i ds c. induction fuel as [|fuel IH]; intros i ds c; cbn [parse_loop].
  - discriminate.
  - destruct (i <? List.length content)%nat.
    + intros H Hz.
      apply bind_inv in H as (line & c1 & H1 & H). injection H1 as H1 <-.
      apply bind_inv in H as ([] & c2 & H2 & H).
      apply parse_directives_z_table in H2.
      apply bind_inv in H as (i2 & c3 & H3 & H).
      apply bind_inv in H as (line2 & c4 & H4 & H). injection H4 as H4 <-.
      apply IH in H; [exact H|].
      destruct (re_match "slice_no" line).
      * now apply parse_table_z_table in H3.
      * injection H3 as _ <-. congruence.
    + intros [= _ <-]. trivial.
Qed.

(** Without a table, the loop is the directives of the lines one after
    the other. *)
Lemma parse_loop_offsets fuel content i ds c ds' c' :
  parse_loop fuel content i ds c = (Ok ds', c') ->
  z_table c' = false ->
  offsets c' = (header_offset "xoffset" (drop i content) (xoffset c),
                header_offset "yoffset" (drop i content) (yoffset c),
                header_offset "zoffset" (drop i content) (zoffset c)).
Proof.
  revert i ds c. induction fuel as [|fuel IH]; intros i ds c; cbn [parse_loop].
  - discriminate.
  - destruct (Nat.ltb_spec i (List.length content)) as [Hi|Hi].
    + intros H Hz.
      apply bind_inv in H as (line & c1 & H1 & H). injection H1 as H1 <-.
      apply bind_inv in H as ([] & c2 & H2 & H).
      apply bind_inv in H as (i2 & c3 & H3 & H).
      apply bind_inv in H as (line2 & c4 & H4 & H). injection H4 as H4 <-.
      destruct (re_match "slice_no" line).
      * apply parse_table_z_table in H3.
        apply parse_loop_z_table in H; [congruence|exact H3].
      * injection H3 as <- <-.
        apply IH in H; [|exact Hz]. rewrite H.
        apply parse_directives_offsets in H2. unfold offsets in H2.
        injection H2 as -> -> ->.
        assert (Hl : content !! i = Some line).
        { rewrite py_list_index_nat in H1. destruct (content !! i); congruence. }
        rewrite (drop_S _ _ _ Hl). reflexivity.
    + intros [= _ <-] _. rewrite drop_ge by lia. reflexivity.
Qed.

Lemma mapM_Ok {A B} (f : A -> result B) (g : A -> B) (l : list A) :
  (forall x, f x = Ok (g x)) -> mapM f l = Ok (map g l).
Proof.
  intros H. induction l as [|x l IH]; cbn; [reflexivity|].
  rewrite H, IH. reflexivity.
Qed.

Lemma preserves_attach_dicom {X} (f : Cube -> X) E ds :
  (forall v c, f (set_dicom_data v c) = f c) -> preserves f (attach_dicom E ds).
Proof.
  intros H. unfold attach_dicom. destruct ds; [apply preserves_ret|].
  apply preserves_bind; [apply preserves_get|]. intros self0.
  destruct (default (DicomObject []) (dicom_data self0)).
  - apply preserves_raise.
  - apply preserves_bind; [apply preserves_lift|]. intros new.
    now apply preserves_modify.
Qed.

Lemma _set_format_str_grid : preserves grid _set_format_str.
Proof.
  intros c r c' H. apply _set_format_str_frame in H.
  unfold without_format in H. destruct c, c'. cbn in H. now simplify_eq.
Qed.

(** A product that the message of [logger.debug] accepts is a float. *)
Lemma scale_offset_checked (off : num) (size : option float) (n : num) :
  scale_offset off size = Ok n -> check_format_f n = Ok tt ->
  exists s x, size = Some s /\ to_float off = Ok x /\ n = PyFloat (x * s).
Proof.
  unfold scale_offset. destruct off as [z|x|], size as [s|]; try discriminate.
  - cbn [mbind result_mbind result_bind].
    destruct (to_float (PyInt z)) as [x|e]; [|discriminate].
    intros [= <-] _. now exists s, x.
  - intros [= <-]. discriminate.
  - intros [= <-] _. now exists s, x.
Qed.

Lemma finish_header_Ok (c c' : Cube) :
  finish_header c = (Ok tt, c') ->
  exists ps sd x y z,
    pixel_size c = Some ps /\ slice_distance c = Some sd /\
    to_float (xoffset c) = Ok x /\ to_float (yoffset c) = Ok y /\
    to_float (zoffset c) = Ok z /\
    slice_number c' = slice_number c /\ pixel_size c' = Some ps /\
    slice_distance c' = Some sd /\ z_table c' = z_table c /\
    dimz c' = dimz c /\
    offsets c' = (PyFloat (x * ps), PyFloat (y * ps), PyFloat (z * sd)) /\
    (z_table c = false ->
     exists n, slice_number c = Some n /\
       slice_pos c' = map (fun i => (z * sd + float_of_Z i * sd)%float) (range n)).
Proof.
  unfold finish_header. intros H.
  apply bind_inv in H as (self0 & c0 & H0 & H). injection H0 as <- <-.
  apply bind_inv in H as (x' & c1 & H1 & H). injection H1 as H1 <-.
  apply bind_inv in H as ([] & c2 & H2 & H). injection H2 as <-.
  apply bind_inv in H as (y' & c3 & H3 & H). injection H3 as H3 <-.
  apply bind_inv in H as ([] & c4 & H4 & H). injection H4 as <-.
  apply bind_inv in H as (z' & c5 & H5 & H). injection H5 as H5 <-.
  apply bind_inv in H as ([] & c6 & H6 & H). injection H6 as <-.
  apply bind_inv in H as ([] & c7 & Cx & H). injection Cx as Cx <-.
  apply bind_inv in H as ([] & c8 & Cy & H). injection Cy as Cy <-.
  apply bind_inv in H as ([] & c9 & Cz & H). injection Cz as Cz <-.
  destruct (scale_offset_checked _ _ _ H1 Cx) as (ps & x & Hps & Hx & ->).
  destruct (scale_offset_checked _ _ _ H3 Cy) as (ps' & y & Hps' & Hy & ->).
  destruct (scale_offset_checked _ _ _ H5 Cz) as (sd & z & Hsd & Hz & ->).
  rewrite Hps in Hps'. injection Hps' as <-.
  exists ps, sd, x, y, z.
  apply bind_inv in H as (self1 & c10 & H7 & H). injection H7 as <- <-.
  apply bind_inv in H as ([] & c11 & H8 & H).
  apply _set_format_str_grid in H. unfold grid, offsets in H. unfold offsets.
  injection H as -> -> -> -> -> -> -> -> ->.
  cbn [z_table set_zoffset set_yoffset set_xoffset negb] in H8.
  destruct (z_table c) eqn:Ht; cbn [negb when] in H8.
  - injection H8 as <-. cbn. repeat split; try assumption. discriminate.
  - apply bind_inv in H8 as (ns & c12 & H9 & H8).
    cbn [slice_number set_zoffset set_yoffset set_xoffset] in H9.
    destruct (slice_number c) as [n|] eqn:Hn; [|discriminate].
    injection H9 as <- <-.
    cbn [zoffset slice_distance set_zoffset set_yoffset set_xoffset] in H8.
    rewrite Hsd in H8.
    rewrite (mapM_Ok _ (fun i => (z * sd + float_of_Z i * sd)%float)) in H8
      by reflexivity.
    injection H8 as <-. cbn. rewrite Hn, Hps, Hsd, Ht.
    repeat split; try assumption. intros _. exists n. split; reflexivity.
Qed.

(** C7, as amended.  When [_parse_trip_header] returns and the header had
    no table of slice positions ([z_table] is false), the cube has a pixel
    size [ps], a slice distance [sd] and a slice number [n]; its offsets are
    the header's integer offsets (those the cube had, for an offset the
    header does not give) multiplied by [ps] for x and y and by [sd] for z;
    and [slice_pos] is the sequence [zoffset + i * sd] for [i] in
    [[0, slice_number)], the header's [slice_number] and not its [dimz];
    the two sequences are the same when [dimz] equals [slice_number]. *)
Theorem parse_header_synthesizes_slice_positions
    (E : Env) (content : string) (c c' : Cube) :
  _parse_trip_header E content c = (Ok tt, c') ->
  z_table c' = false ->
  exists (n : Z) (ps sd x y z : float),
    slice_number c' = Some n /\ pixel_size c' = Some ps /\
    slice_distance c' = Some sd /\
    to_float (header_offset "xoffset" (split_on newline content) (xoffset c)) = Ok x /\
    to_float (header_offset "yoffset" (split_on newline content) (yoffset c)) = Ok y /\
    to_float (header_offset "zoffset" (split_on newline content) (zoffset c)) = Ok z /\
    xoffset c' = PyFloat (x * ps) /\ yoffset c' = PyFloat (y * ps) /\
    zoffset c' = PyFloat (z * sd) /\
    slice_pos c' = map (fun i => (z * sd + float_of_Z i * sd)%float) (range n) /\
    (forall d, dimz c' = Some d -> d = n ->
       slice_pos c' = map (fun i => (z * sd + float_of_Z i * sd)%float) (range d)).
Proof.
  unfold _parse_trip_header. intros H Hz.
  apply bind_inv in H as ([] & c1 & H1 & H). injection H1 as <-.
  apply bind_inv in H as ([] & c2 & H2 & H). injection H2 as <-.
  apply bind_inv in H as (ds & c3 & H3 & H).
  apply bind_inv in H as ([] & c4 & H4 & H).
  assert (Hp : preserves grid (attach_dicom E ds))
    by (apply preserves_attach_dicom; reflexivity).
  apply Hp in H. unfold grid, offsets in H. injection H as Hn Hps Hsd Ht Hxo Hyo Hzo Hsp Hdz.
  apply finish_header_Ok in H4
    as (ps & sd & x & y & z & Ps & Sd & X & Y & Z' & Sn & Ps' & Sd' & Zt & Dz & Off & Sp).
  rewrite Ht, Zt in Hz.
  apply parse_loop_offsets in H3; [|exact Hz].
  unfold offsets in H3, Off. injection H3 as Ex Ey Ez. injection Off as Ox Oy Oz.
  cbn [xoffset yoffset zoffset set_z_table set_header_set] in Ex, Ey, Ez.
  rewrite drop_0 in Ex, Ey, Ez.
  destruct (Sp Hz) as (n & Sn' & Sp').
  exists n, ps, sd, x, y, z.
  rewrite <- Ex, <- Ey, <- Ez, Hn, Hps, Hsd, Hxo, Hyo, Hzo, Hsp, Sn, Sn'.
  repeat split; try assumption. now intros d _ ->.
Qed.

Lemma bind_ext {S A B} (m : M S A) (k1 k2 : A -> M S B) s :
  (forall a s', m s = (Ok a, s') -> k1 a s' = k2 a s') ->
  (m ≫= k1) s = (m ≫= k2) s.
Proof.
  intros H. unfold mbind, M_bind, bind. destruct (m s) as [[a|e] s']; [|reflexivity].
  now apply H.
Qed.

Lemma parse_table_rows_forward content js k c k' c' :
  for_in js k (parse_table_row content) c = (Ok k', c') -> (k <= k')%nat.
Proof.
  revert k c. induction js as [|j js IH]; intros k c; cbn [for_in].
  - intros [= <- _]. lia.
  - intros H. apply bind_inv in H as ([ct k1] & c1 & H1 & H).
    assert (ct = Continue /\ k1 = Datatypes.S k) as [-> ->].
    { unfold parse_table_row in H1.
      apply bind_inv in H1 as (? & ? & _ & H1).
      apply bind_inv in H1 as (? & ? & _ & H1).
      apply bind_inv in H1 as (? & ? & _ & H1).
      apply bind_inv in H1 as (? & ? & _ & H1).
      injection H1 as <- <- _. split; reflexivity. }
    apply IH in H. lia.
Qed.

Lemma parse_table_forward content i c i' c' :
  parse_table content i c = (Ok i', c') -> (i < i')%nat.
Proof.
  unfold parse_table. intros H.
  apply bind_inv in H as (? & ? & _ & H).
  apply bind_inv in H as (? & ? & _ & H).
  apply bind_inv in H as (? & ? & _ & H).
  apply bind_inv in H as (? & ? & _ & H).
  apply parse_table_rows_forward in H. lia.
Qed.

(** The fuel of [parse_loop] is never used up: any two amounts of it above
    the number of lines left give the same run. *)
Lemma parse_loop_fuel fuel1 fuel2 content i ds c :
  (List.length content - i < fuel1)%nat ->
  (List.length content - i < fuel2)%nat ->
  parse_loop fuel1 content i ds c = parse_loop fuel2 content i ds c.
Proof.
  revert fuel2 i ds c. induction fuel1 as [|fuel1 IH]; intros fuel2 i ds c H1 H2; [lia|].
  destruct fuel2 as [|fuel2]; [lia|]. cbn [parse_loop].
  destruct (Nat.ltb_spec i (List.length content)) as [Hi|Hi]; [|reflexivity].
  apply bind_ext. intros line c1 _.
  apply bind_ext. intros [] c2 _.
  apply bind_ext. intros i2 c3 Hi2.
  apply bind_ext. intros line2 c4 _.
  assert (i <= i2)%nat.
  { destruct (re_match "slice_no" line).
    - apply parse_table_forward in Hi2. lia.
    - injection Hi2 as <- _. lia. }
  apply IH; lia.
Qed.

(** C7, the counterexample.  Parsing [header_2_of_3] into a new cube
    returns, leaves [z_table] false and [dimz] at 3, and gives the two
    slice positions 10 and 12.5, one for each of the [slice_number] slices:
    not the three positions 10, 12.5 and 15 of the range [[0, dimz)]. *)
Lemma parse_header_slice_number_not_dimz :
  fst (_parse_trip_header example_env header_2_of_3 (new_Cube example_env)) = Ok tt /\
  z_table (snd (_parse_trip_header example_env header_2_of_3 (new_Cube example_env)))
  = false /\
  dimz (snd (_parse_trip_header example_env header_2_of_3 (new_Cube example_env)))
  = Some 3 /\
  slice_pos (snd (_parse_trip_header example_env header_2_of_3 (new_Cube example_env)))
  = [10; 12.5]%float.
Proof. repeat split; vm_compute; reflexivity. Qed.

Lemma parse_header_synthesizes_slice_positions_witness :
  exists (n : Z) (ps sd x y z : float),
    n = 2 /\ ps = 1%float /\ sd = 2.5%float /\ x = 3%float /\ z = 4%float /\
    slice_pos (snd (_parse_trip_header example_env header_2_of_3 (new_Cube example_env)))
    = map (fun i => (z * sd + float_of_Z i * sd)%float) (range n).
Proof.
  destruct (parse_header_synthesizes_slice_positions example_env header_2_of_3
              (new_Cube example_env)
              (snd (_parse_trip_header example_env header_2_of_3 (new_Cube example_env))))
    as (n & ps & sd & x & y & z & Hn & Hps & Hsd & Hx & Hy & Hz & _ & _ & _ & Hs & _).
  - vm_compute. reflexivity.
  - vm_compute. reflexivity.
  - exists n, ps, sd, x, y, z.
    vm_compute in Hn, Hps, Hsd, Hx, Hz.
    repeat split; try congruence.
Defined.

(** ** The dose volume histogram *)

(** Float64 facts the histogram of a uniform dose rests on. *)

Lemma float_add_0_r (x : float) s m e :
  Prim2SF x = S754_finite s m e -> (x + 0 = x)%float.
Proof. intros H. apply Prim2SF_inj. rewrite add_spec, H. reflexivity. Qed.

Lemma float_add_0_l (x : float) s m e :
  Prim2SF x = S754_finite s m e -> (0 + x = x)%float.
Proof. intros H. apply Prim2SF_inj. rewrite add_spec, H. reflexivity. Qed.

Lemma float_div_0_l (x : float) s m e :
  Prim2SF x = S754_finite s m e -> (0 / x = if s then -0 else 0)%float.
Proof.
  intros H. apply Prim2SF_inj. rewrite div_spec, H. destruct s; reflexivity.
Qed.

Lemma float_div_self (x : float) s m e :
  Prim2SF x = S754_finite s m e -> (x / x = 1)%float.
Proof.
  intros H. apply Prim2SF_inj. rewrite div_spec, H.
  unfold SF64div, SFdiv. rewrite xorb_nilpotent.
  unfold SFdiv_core_binary.
  replace (Zdigits2 (Z.pos m) + e - (Zdigits2 (Z.pos m) + e)) with 0 by lia.
  replace (e - e) with 0 by lia.
  change (fexp prec emax 0 `min` 0) with (-53).
  change (0 - -53) with 53. cbv iota.
  rewrite Z.shiftl_mul_pow2 by lia.
  assert (E : IntDef.Z.div_eucl (Z.pos m * 2 ^ 53) (Z.pos m) = (2 ^ 53, 0)).
  { change (IntDef.Z.div_eucl (Z.pos m * 2 ^ 53) (Z.pos m))
      with (Z.div_eucl (Z.pos m * 2 ^ 53) (Z.pos m)).
    assert (E : forall a b, Z.div_eucl a b = (a / b, a mod b)).
    { intros a b. unfold Z.div, Z.modulo. now destruct (Z.div_eucl a b). }
    rewrite E, (Z.mul_comm (Z.pos m)), Z.div_mul, Z.mod_mul by lia. reflexivity. }
  rewrite E. unfold new_location.
  destruct (Z.even (Z.pos m)); reflexivity.
Qed.

Module DvhFacts.
Import Dvh.

Lemma Forall2_map_left {A B C} (P : B -> C -> Prop) (g : A -> B) l k :
  Forall2 (fun x => P (g x)) l k -> Forall2 P (map g l) k.
Proof. induction 1; cbn [map]; constructor; assumption. Qed.

Lemma replicate_tab (x : float) a n : replicate n x = tab (fun _ => x) a n.
Proof.
  unfold tab. revert a. induction n as [|n IH]; intros a; cbn; [reflexivity|].
  now rewrite (IH (S a)).
Qed.

Lemma tab_length f a n : List.length (tab f a n) = n.
Proof. unfold tab. now rewrite length_map, length_seq. Qed.

Lemma tab_ext f g a n : (forall j, f j = g j) -> tab f a n = tab g a n.
Proof. intros H. unfold tab. apply map_ext. intros j. apply H. Qed.

Lemma zip_with_tab (op : float -> float -> float) f g a n :
  zip_with op (tab f a n) (tab g a n) = tab (fun j => op (f j) (g j)) a n.
Proof.
  unfold tab. revert a. induction n as [|n IH]; intros a; cbn; [reflexivity|].
  now rewrite IH.
Qed.

(** Adding the histogram of a slice to the histogram so far. *)
Lemma add_one_bin (d : nat) (t c : float) :
  add_bins (one_bin d t) (one_bin d c) = Ok (one_bin d (t + c)%float).
Proof.
  unfold add_bins, one_bin. rewrite !tab_length, Nat.eqb_refl, zip_with_tab.
  f_equal. apply tab_ext. intros j. now destruct (j =? d)%nat.
Qed.

Section OneBin.
Variable d : nat.
Variable t : float.
Variables (s : bool) (m : positive) (e : Z).
Hypothesis Ht : Prim2SF t = S754_finite s m e.

Let f (j : nat) : float := if (j =? d)%nat then t else 0%float.

(** The sum of a histogram with one bin, from the left. *)
Lemma fold_add_after a n acc :
  (d < a)%nat -> (acc = t \/ acc = 0%float) ->
  fold_left PrimFloat.add (tab f a n) acc = acc.
Proof.
  unfold tab. revert a. induction n as [|n IH]; intros a Ha Hacc; cbn [seq map fold_left];
    [reflexivity|].
  assert (E : (acc + f a)%float = acc).
  { unfold f. destruct (Nat.eqb_spec a d); [lia|].
    destruct Hacc as [->| ->]; [exact (float_add_0_r _ _ _ _ Ht)|reflexivity]. }
  rewrite E. apply IH; [lia|exact Hacc].
Qed.

Lemma fold_add_one_bin a n :
  (a <= d < a + n)%nat -> fold_left PrimFloat.add (tab f a n) 0%float = t.
Proof.
  unfold tab. revert a. induction n as [|n IH]; intros a Ha; [lia|].
  cbn [seq map fold_left]. unfold f at 2. destruct (Nat.eqb_spec a d) as [->|Hne].
  - rewrite (float_add_0_l _ _ _ _ Ht). apply (fold_add_after (S d) n t); [lia|now left].
  - change (0 + 0)%float with 0%float. apply IH. lia.
Qed.

(** The reversed cumulative sum, from the head of the vector. *)
Lemma cumsum_from_app acc l1 l2 :
  cumsum_from acc (l1 ++ l2)
  = (cumsum_from acc l1 ++ cumsum_from (fold_left PrimFloat.add l1 acc) l2)%list.
Proof.
  revert acc. induction l1 as [|x l1 IH]; intros acc; cbn; [reflexivity|].
  now rewrite IH.
Qed.

Lemma hd_rev_cumsum z r :
  hd 0%float (List.rev (z :: cumsum_from z r)) = fold_left PrimFloat.add r z.
Proof.
  revert z. induction r as [|u r IH]; intros z; [reflexivity|].
  cbn [cumsum_from fold_left]. rewrite <- IH.
  change (List.rev (z :: (z + u)%float :: cumsum_from (z + u)%float r))
    with (List.rev ((z + u)%float :: cumsum_from (z + u)%float r) ++ [z])%list.
  destruct (List.rev ((z + u)%float :: cumsum_from (z + u)%float r)) as [|w ws] eqn:E;
    [|reflexivity].
  apply (f_equal (@List.length float)) in E. rewrite List.length_rev in E. discriminate.
Qed.

Lemma rev_cumsum_snoc z r x :
  List.rev (cumsum ((z :: r) ++ [x]))
  = (hd 0%float (List.rev (cumsum (z :: r))) + x)%float :: List.rev (cumsum (z :: r)).
Proof.
  change (cumsum ((z :: r) ++ [x])) with (z :: cumsum_from z (r ++ [x])).
  change (cumsum (z :: r)) with (z :: cumsum_from z r).
  rewrite cumsum_from_app. cbn [cumsum_from].
  rewrite hd_rev_cumsum.
  change (z :: cumsum_from z r ++ [(fold_left PrimFloat.add r z + x)%float])%list
    with ((z :: cumsum_from z r) ++ [(fold_left PrimFloat.add r z + x)%float])%list.
  now rewrite List.rev_app_distr.
Qed.

Lemma rev_cumsum_cons x y l :
  List.rev (cumsum (List.rev (x :: y :: l)))
  = (hd 0%float (List.rev (cumsum (List.rev (y :: l)))) + x)%float
      :: List.rev (cumsum (List.rev (y :: l))).
Proof.
  change (List.rev (x :: y :: l)) with (List.rev (y :: l) ++ [x])%list.
  destruct (List.rev (y :: l)) as [|z r] eqn:E.
  { apply (f_equal (@List.length float)) in E. rewrite List.length_rev in E. discriminate. }
  apply rev_cumsum_snoc.
Qed.

Lemma rev_cumsum_one_bin a n :
  Forall2 (fun y j => y = if ((j <=? d) && (d <? a + n))%nat then t else 0%float)
    (List.rev (cumsum (List.rev (tab f a n)))) (seq a n).
Proof.
  revert a. induction n as [|n IH]; intros a; [constructor|].
  destruct n as [|n].
  - unfold tab. cbn [seq map List.rev app cumsum]. constructor; [|constructor]. unfold f.
    destruct (Nat.eqb_spec a d), (Nat.leb_spec a d), (Nat.ltb_spec d (a + 1));
      cbn [andb]; try reflexivity; lia.
  - specialize (IH (S a)). unfold tab in *. cbn [seq map] in *.
    rewrite rev_cumsum_cons.
    remember (List.rev (cumsum (List.rev (f (S a) :: map f (seq (S (S a)) n))))) as L eqn:EL.
    constructor.
    + inversion IH as [|y0 j0 ys js Hy0 Hrest]; subst L. subst. cbn [hd]. unfold f at 1.
      destruct (Nat.eqb_spec a d), (Nat.leb_spec a d), (Nat.leb_spec (S a) d),
        (Nat.ltb_spec d (a + S (S n))), (Nat.ltb_spec d (S a + S n)); cbn [andb]; try lia;
        solve [ reflexivity | exact (float_add_0_l _ _ _ _ Ht)
              | exact (float_add_0_r _ _ _ _ Ht) ].
    + replace (a + S (S n))%nat with (S a + S n)%nat by lia. exact IH.
Qed.

(** The curve: the reversed cumulative sum divided by the sum. *)
Lemma dvh_y_one_bin :
  (d + 1 < maximum_dose)%nat ->
  Forall2 (fun y j => y = if (j <=? d)%nat then 1%float
                          else if s then (-0)%float else 0%float)
    (map (fun y => y / t)%float
       (List.rev (cumsum (List.rev (tab f 0 maximum_dose)))))
    (seq 0 maximum_dose).
Proof.
  intros Hd. apply Forall2_map_left.
  eapply Forall2_impl; [apply rev_cumsum_one_bin|].
  intros y j ->. cbv beta.
  destruct (Nat.ltb_spec d (0 + maximum_dose)); [|lia]. rewrite andb_true_r.
  destruct (j <=? d)%nat.
  - exact (float_div_self _ _ _ _ Ht).
  - exact (float_div_0_l _ _ _ _ Ht).
Qed.
End OneBin.

(** [np.where] on a vector whose test is known index by index. *)
Lemma where_from_filter cond (c : nat -> bool) l a n :
  Forall2 (fun y j => cond y = c j) l (seq a n) ->
  where_from a cond l = List.filter c (seq a n).
Proof.
  revert a l. induction n as [|n IH]; intros a l H; cbn [seq] in *.
  - inversion H. reflexivity.
  - inversion H as [|y j l' js Hy Hl]; subst. cbn [where_from List.filter].
    rewrite Hy, (IH _ _ Hl). reflexivity.
Qed.

Lemma filter_seq_const (c : nat -> bool) (b : bool) a n :
  (forall j, (a <= j < a + n)%nat -> c j = b) ->
  List.filter c (seq a n) = if b then seq a n else [].
Proof.
  revert a. induction n as [|n IH]; intros a H; cbn [seq List.filter].
  - now destruct b.
  - rewrite (H a) by lia. rewrite IH by (intros; apply H; lia). now destruct b.
Qed.

Lemma filter_seq_le d a n :
  (a <= d + 1 <= a + n)%nat ->
  List.filter (fun j => j <=? d)%nat (seq a n) = seq a (d + 1 - a).
Proof.
  intros H. replace n with ((d + 1 - a) + (a + n - (d + 1)))%nat at 1 by lia.
  rewrite seq_app, List.filter_app.
  rewrite (filter_seq_const _ true), (filter_seq_const _ false).
  - apply app_nil_r.
  - intros j Hj. apply Nat.leb_gt. lia.
  - intros j Hj. apply Nat.leb_le. lia.
Qed.

Lemma filter_seq_gt d a n :
  (a <= d + 1 <= a + n)%nat ->
  List.filter (fun j => negb (j <=? d))%nat (seq a n) = seq (d + 1) (a + n - (d + 1)).
Proof.
  intros H. replace n with ((d + 1 - a) + (a + n - (d + 1)))%nat at 1 by lia.
  rewrite seq_app, List.filter_app.
  rewrite (filter_seq_const _ false), (filter_seq_const _ true).
  - rewrite app_nil_l. f_equal. lia.
  - intros j Hj. apply negb_true_iff, Nat.leb_gt. lia.
  - intros j Hj. apply negb_false_iff, Nat.leb_le. lia.
Qed.

Lemma py_list_index_last {A} (l : list A) (x : A) :
  py_list_index (l ++ [x])%list (-1) = Ok x.
Proof.
  unfold py_list_index. rewrite length_app. cbn [List.length Z.ltb Z.compare].
  destruct (Z.ltb_spec (-1 + Z.of_nat (List.length l + 1)) 0); [lia|].
  replace (Z.to_nat (-1 + Z.of_nat (List.length l + 1))) with (List.length l + 0)%nat by lia.
  rewrite lookup_app_r by lia.
  replace (List.length l + 0 - List.length l)%nat with 0%nat by lia. reflexivity.
Qed.

Section Curve.
Variable d : nat.
Variable t : float.
Variables (s : bool) (m : positive) (e : Z).
Hypothesis Ht : Prim2SF t = S754_finite s m e.
Hypothesis Hd : (d + 1 < maximum_dose)%nat.

Lemma fsum_one_bin : fsum (one_bin d t) = t.
Proof. apply (fold_add_one_bin d t s m e Ht). lia. Qed.

Lemma min_dose_one_bin :
  py_list_index
    (np_where (fun y => PrimFloat.leb 0.98 y)
       (map (fun y => y / t)%float (List.rev (cumsum (List.rev (one_bin d t)))))) (-1)
  = Ok d.
Proof.
  unfold np_where.
  rewrite (where_from_filter _ (fun j => j <=? d)%nat _ 0 maximum_dose).
  - rewrite filter_seq_le by lia. rewrite Nat.sub_0_r, seq_app.
    apply py_list_index_last.
  - eapply Forall2_impl; [exact (dvh_y_one_bin d t s m e Ht Hd)|].
    intros y j ->. cbv beta. destruct (j <=? d)%nat; [reflexivity|now destruct s].
Qed.

Lemma max_dose_one_bin :
  py_list_index
    (np_where (fun y => PrimFloat.leb y 0.02)
       (map (fun y => y / t)%float (List.rev (cumsum (List.rev (one_bin d t)))))) 0
  = Ok (d + 1)%nat.
Proof.
  unfold np_where.
  rewrite (where_from_filter _ (fun j => negb (j <=? d))%nat _ 0 maximum_dose).
  - rewrite filter_seq_gt by lia.
    destruct (0 + maximum_dose - (d + 1))%nat as [|k] eqn:Hk; [lia|].
    reflexivity.
  - eapply Forall2_impl; [exact (dvh_y_one_bin d t s m e Ht Hd)|].
    intros y j ->. cbv beta. destruct (j <=? d)%nat; [reflexivity|now destruct s].
Qed.

Lemma dvh_one_bin :
  Forall2 (fun xy j => xy.1 = (float_of_Z (Z.of_nat j) / 1000)%float /\
                       xy.2 = if (j <=? d)%nat then 1%float
                              else if s then (-0)%float else 0%float)
    (zip (map (fun x => x / 1000)%float dvh_axis)
         (map (fun y => y / t)%float (List.rev (cumsum (List.rev (one_bin d t))))))
    (seq 0 maximum_dose).
Proof.
  unfold dvh_axis. rewrite map_map. generalize (dvh_y_one_bin d t s m e Ht Hd).
  fold (one_bin d t).
  generalize (map (fun y => y / t)%float (List.rev (cumsum (List.rev (one_bin d t))))).
  generalize (seq 0 maximum_dose). intros js ys Hy.
  induction Hy as [|y j ys js Hyj _ IH]; cbn [map zip zip_with]; constructor; auto.
Qed.
End Curve.

Section Uniform.
Context {contour : Type}.
Variable calculate_dvh_slice :
  plane -> contour -> option float * option float * option float -> list float.
Variable get_slice_at_pos : float -> option (list contour).
Variable np_dot : list float -> list float -> float.
Variable self : Cube.
Variable h : heap.
Variables (l : loc) (a : ndarray) (ps sd : float).
Variable d : nat.
Variable cnt : nat -> float.
Hypothesis Hps : pixel_size self = Some ps.
Hypothesis Hsd : slice_distance self = Some sd.
Hypothesis Hl : cube self = Some l.
Hypothesis Ha : h !! l = Some a.

Lemma dvh_slice_uniform (k : nat) (hit : bool) :
  uniform_slice calculate_dvh_slice get_slice_at_pos a ps sd d cnt k ->
  dvh_slice calculate_dvh_slice get_slice_at_pos self (Z.of_nat k)
    (z_pos_at sd k, one_bin d (total cnt k), hit) h
  = (Ok (Continue, (z_pos_at sd (S k), one_bin d (total cnt (S k)), true)), h).
Proof.
  intros (p & c & cs & Hp & Hc & Hh). unfold dvh_slice.
  rewrite Hsd, Hps, Hl. cbn [size_value z_pos_at] in *.
  unfold deref. munfold. rewrite Hc, Ha, Hp.
  unfold py_list_index at 1. cbn [Z.ltb Z.compare List.length].
  change (Z.to_nat 0) with 0%nat. cbn [lookup list_lookup].
  rewrite Hh, add_one_bin. reflexivity.
Qed.

Lemma dvh_loop_uniform (n k : nat) (hit : bool) :
  (forall i, (k <= i < k + n)%nat ->
     uniform_slice calculate_dvh_slice get_slice_at_pos a ps sd d cnt i) ->
  for_in (map Z.of_nat (seq k n)) (z_pos_at sd k, one_bin d (total cnt k), hit)
    (dvh_slice calculate_dvh_slice get_slice_at_pos self) h
  = (Ok (z_pos_at sd (k + n), one_bin d (total cnt (k + n)), hit || (0 <? n)%nat), h).
Proof.
  revert k hit. induction n as [|n IH]; intros k hit H; cbn [seq map for_in].
  - rewrite Nat.add_0_r, orb_false_r. reflexivity.
  - erewrite bind_Ok by (apply dvh_slice_uniform, H; lia).
    cbv beta iota.
    rewrite IH by (intros; apply H; lia).
    replace (S k + n)%nat with (k + S n)%nat by lia.
    now rewrite orb_true_r.
Qed.

Lemma uniform_run (n : nat) (s : bool) (m : positive) (e : Z) :
  dimz self = Some (Z.of_nat n) -> (0 < n)%nat -> (d + 1 < maximum_dose)%nat ->
  Prim2SF (total cnt n) = S754_finite s m e ->
  (forall i, (i < n)%nat ->
     uniform_slice calculate_dvh_slice get_slice_at_pos a ps sd d cnt i) ->
  calculate_dvh calculate_dvh_slice get_slice_at_pos np_dot self h
  = (Ok (Some (mk_dvh_result
      (zip (map (fun x => x / 1000)%float dvh_axis)
           (map (fun y => y / total cnt n)%float
              (List.rev (cumsum (List.rev (one_bin d (total cnt n)))))))
      (float_of_Z (Z.of_nat d) / 1000)%float
      (float_of_Z (Z.of_nat (d + 1)) / 1000)%float
      (np_dot (one_bin d (total cnt n)) dvh_axis / total cnt n / 1000)%float
      (total cnt n * ps * ps * sd / 1000)%float)), h).
Proof.
  intros Hn Hpos Hd Ht Hu. unfold calculate_dvh.
  rewrite Hn. cbn [py_range]. unfold range. rewrite Nat2Z.id.
  erewrite bind_Ok by reflexivity.
  pose proof (dvh_loop_uniform n 0 false) as Hloop.
  cbn [z_pos_at total Nat.add] in Hloop.
  assert (E : replicate maximum_dose 0%float = one_bin d 0).
  { unfold one_bin. rewrite (replicate_tab _ 0). apply tab_ext.
    intros j. now destruct (j =? d)%nat. }
  rewrite E.
  erewrite bind_Ok by (apply Hloop; intros; apply Hu; lia).
  cbv beta iota. destruct n; [lia|]. cbn [Nat.ltb Nat.leb orb].
  rewrite (fsum_one_bin d _ s m e Ht Hd).
  rewrite (min_dose_one_bin d _ s m e Ht Hd), (max_dose_one_bin d _ s m e Ht Hd).
  rewrite Hps, Hsd. reflexivity.
Qed.
End Uniform.
End DvhFacts.

(** [DosCube.calculate_dvh] on a cube of uniform dose, in float64.  The cube
    has sizes and an array; it has [n] slices, [n > 0]; the region meets it
    at each of the positions the loop asks for, [slice_distance] added up
    [i + 1] times; the histogram of each slice has all its voxels, [cnt i]
    of them, in the bin [d], with [d + 1] below the 1500 bins; the sum [t]
    of the voxels, as the loop adds it up, is finite and not zero; and the
    dot product of the histogram with the axis is [t * d].  Then
    [calculate_dvh] returns and leaves the store as it is; the curve is 1
    up to the dose [d / 1000] and zero after it, the minimum dose is
    [d / 1000], the maximum dose [(d + 1) / 1000], the mean dose
    [t * d / t / 1000], and the volume is [t * pixel_size * pixel_size *
    slice_distance / 1000]: the number of voxels times the volume of a
    voxel, divided by 1000. *)
Theorem calculate_dvh_uniform_dose {contour : Type}
    (calculate_dvh_slice :
       Dvh.plane -> contour -> option float * option float * option float -> list float)
    (get_slice_at_pos : float -> option (list contour))
    (np_dot : list float -> list float -> float)
    (self : Cube) (h : heap) (l : loc) (a : ndarray) (ps sd : float)
    (d n : nat) (cnt : nat -> float) (s : bool) (m : positive) (e : Z) :
  pixel_size self = Some ps -> slice_distance self = Some sd ->
  cube self = Some l -> h !! l = Some a ->
  dimz self = Some (Z.of_nat n) -> (0 < n)%nat -> (d + 1 < Dvh.maximum_dose)%nat ->
  Prim2SF (Dvh.total cnt n) = S754_finite s m e ->
  (forall i, (i < n)%nat ->
     Dvh.uniform_slice calculate_dvh_slice get_slice_at_pos a ps sd d cnt i) ->
  np_dot (Dvh.one_bin d (Dvh.total cnt n)) Dvh.dvh_axis
  = (Dvh.total cnt n * float_of_Z (Z.of_nat d))%float ->
  exists r,
    Dvh.calculate_dvh calculate_dvh_slice get_slice_at_pos np_dot self h
    = (Ok (Some r), h) /\
    Forall2 (fun xy j => xy.1 = (float_of_Z (Z.of_nat j) / 1000)%float /\
                         xy.2 = if (j <=? d)%nat then 1%float
                                else if s then (-0)%float else 0%float)
      (Dvh.dvh r) (seq 0 Dvh.maximum_dose) /\
    Dvh.min_dose r = (float_of_Z (Z.of_nat d) / 1000)%float /\
    Dvh.max_dose r = (float_of_Z (Z.of_nat (d + 1)) / 1000)%float /\
    Dvh.mean_dose r
    = (Dvh.total cnt n * float_of_Z (Z.of_nat d) / Dvh.total cnt n / 1000)%float /\
    Dvh.mean_volume r = (Dvh.total cnt n * ps * ps * sd / 1000)%float.
Proof.
  intros Hps Hsd Hl Ha Hn Hpos Hd Ht Hu Hdot.
  eexists. split.
  - exact (DvhFacts.uniform_run calculate_dvh_slice get_slice_at_pos np_dot self h
             l a ps sd d cnt Hps Hsd Hl Ha n s m e Hn Hpos Hd Ht Hu).
  - cbn [Dvh.dvh Dvh.min_dose Dvh.max_dose Dvh.mean_dose Dvh.mean_volume].
    split; [exact (DvhFacts.dvh_one_bin d _ s m e Ht Hd)|].
    split; [reflexivity|]. split; [reflexivity|]. split; [|reflexivity].
    now rewrite Hdot.
Qed.

Lemma calculate_dvh_uniform_dose_witness :
  exists r,
    Dvh.calculate_dvh count_at_1000 region_everywhere dot_from_left
      (self one_voxel_dose) (mem one_voxel_dose)
    = (Ok (Some r), mem one_voxel_dose) /\
    Dvh.min_dose r = 1%float /\ Dvh.max_dose r = 1.001%float /\
    Dvh.mean_dose r = 1%float /\ Dvh.mean_volume r = 0.001%float.
Proof.
  destruct (calculate_dvh_uniform_dose count_at_1000 region_everywhere dot_from_left
              (self one_voxel_dose) (mem one_voxel_dose) 1%positive
              (mk_ndarray np_int16 (1, 1, 1)%nat [SInt 1000]) 1 1
              1000 1 (fun _ => 1%float) false 4503599627370496%positive (-52))
    as (r & Hr & _ & Hlo & Hhi & Hm & Hv).
  - reflexivity.
  - reflexivity.
  - reflexivity.
  - vm_compute. reflexivity.
  - reflexivity.
  - lia.
  - unfold Dvh.maximum_dose. lia.
  - vm_compute. reflexivity.
  - intros i Hi. destruct i; [|lia]. eexists _, (), []. repeat split.
  - vm_compute. reflexivity.
  - exists r. split; [exact Hr|].
    rewrite Hlo, Hhi, Hm, Hv. repeat split; vm_compute; reflexivity.
Defined.

(** ** A cube and itself, and the slices by number *)





